(** * The form-builder document store (src/store/formBuilderStore.ts)

    A shallow embedding of the zustand store that holds the form under
    edit: the ordered component list, the form settings, the selection,
    the bounded undo/redo history and the one-slot "recently deleted"
    buffer.

    Every action of the store builds fresh arrays and objects
    ([...xs], {...o}, map, filter); none mutates an array or an object
    in place, so JavaScript values are modelled by immutable Rocq values
    and a copy is the value itself.  Numbers that index arrays are
    integers ([Z]): [currentHistoryIndex] may a priori be any integer,
    and the array primitives below follow ECMAScript on negative and
    out-of-range arguments. *)

From Stdlib Require Import ZArith String List Bool Lia DecimalString.
Import ListNotations.
Local Open Scope Z_scope.

Set Implicit Arguments.

(** ** JavaScript array primitives used by the store *)

Section JsArray.
Variable A : Type.

(** Relative index of [Array.prototype.slice] and [splice]: a negative
    argument counts from the end, and the result is clamped to
    [0 .. len]. *)
Definition relative_index (len k : Z) : Z :=
  if k <? 0 then Z.max (len + k) 0 else Z.min k len.

(** [l.slice(start, end)]; [None] for an omitted [end]. *)
Definition slice (start : Z) (end_ : option Z) (l : list A) : list A :=
  let len := Z.of_nat (length l) in
  let k := relative_index len start in
  let final := match end_ with
               | None => len
               | Some e => relative_index len e
               end in
  firstn (Z.to_nat (final - k)) (skipn (Z.to_nat k) l).

(** [l[i]]: [None] stands for [undefined]. *)
Definition at_index (l : list A) (i : Z) : option A :=
  if i <? 0 then None else nth_error l (Z.to_nat i).

(** [l.findIndex(p)]: the first index whose element satisfies [p],
    [-1] when there is none. *)
Fixpoint findIndex (p : A -> bool) (l : list A) : Z :=
  match l with
  | [] => -1
  | x :: r => if p x then 0
              else let i := findIndex p r in
                   if i <? 0 then -1 else i + 1
  end.

(** [l.splice(start, 0, x)] on a copy of [l]: insertion of [x] at the
    relative index of [start]. *)
Definition splice_insert (start : Z) (x : A) (l : list A) : list A :=
  let k := Z.to_nat (relative_index (Z.of_nat (length l)) start) in
  firstn k l ++ x :: skipn k l.

(** The last [n] elements of [l]: what [l.slice(-n)] keeps, the oldest
    going first. *)
Definition keep_last (n : nat) (l : list A) : list A :=
  skipn (length l - n) l.

End JsArray.

(** ** Data model *)

Module FormComponent.
Record t : Type := mk {
  id : string;
  type : string;
  label : string;
  placeholder : option string;
  required : option bool;
  options : option (list string)
}.
End FormComponent.
Abbreviation FormComponent := FormComponent.t.

(** [Partial<FormComponent>]: [None] is an absent key.  An optional
    property may be present with the value [undefined], which is
    [Some None]. *)
Module PartialFormComponent.
Record t : Type := mk {
  id : option string;
  type : option string;
  label : option string;
  placeholder : option (option string);
  required : option (option bool);
  options : option (option (list string))
}.
End PartialFormComponent.
Abbreviation PartialFormComponent := PartialFormComponent.t.

Module FormSettings.
Record t : Type := mk {
  title : string;
  description : string;
  requireLogin : bool;
  collectEmail : bool
}.
End FormSettings.
Abbreviation FormSettings := FormSettings.t.

Module PartialFormSettings.
Record t : Type := mk {
  title : option string;
  description : option string;
  requireLogin : option bool;
  collectEmail : option bool
}.
End PartialFormSettings.
Abbreviation PartialFormSettings := PartialFormSettings.t.

Module HistoryState.
Record t : Type := mk {
  components : list FormComponent;
  formSettings : FormSettings;
  selectedComponent : option FormComponent
}.
End HistoryState.
Abbreviation HistoryState := HistoryState.t.

Module RecentlyDeleted.
Record t : Type := mk {
  component : FormComponent;
  index : Z;
  timestamp : Z
}.
End RecentlyDeleted.
Abbreviation RecentlyDeleted := RecentlyDeleted.t.

(** The data part of [FormBuilderState]; its actions are the functions
    of the next section. *)
Record FormBuilderState : Type := mkState {
  components : list FormComponent;
  selectedComponent : option FormComponent;
  formSettings : FormSettings;
  isPreviewMode : bool;
  history : list HistoryState;
  currentHistoryIndex : Z;
  recentlyDeleted : option RecentlyDeleted
}.

(** Object spread [{ ...o, ...updates }]: a key of [updates] overrides
    the key of [o]. *)
Definition override {V : Type} (old : V) (upd : option V) : V :=
  match upd with
  | Some v => v
  | None => old
  end.

Definition spreadComponent (comp : FormComponent) (updates : PartialFormComponent)
  : FormComponent :=
  FormComponent.mk
    (override (FormComponent.id comp) (PartialFormComponent.id updates))
    (override (FormComponent.type comp) (PartialFormComponent.type updates))
    (override (FormComponent.label comp) (PartialFormComponent.label updates))
    (override (FormComponent.placeholder comp) (PartialFormComponent.placeholder updates))
    (override (FormComponent.required comp) (PartialFormComponent.required updates))
    (override (FormComponent.options comp) (PartialFormComponent.options updates)).

Definition spreadSettings (old : FormSettings) (settings : PartialFormSettings)
  : FormSettings :=
  FormSettings.mk
    (override (FormSettings.title old) (PartialFormSettings.title settings))
    (override (FormSettings.description old) (PartialFormSettings.description settings))
    (override (FormSettings.requireLogin old) (PartialFormSettings.requireLogin settings))
    (override (FormSettings.collectEmail old) (PartialFormSettings.collectEmail settings)).

Definition initialFormSettings : FormSettings :=
  FormSettings.mk EmptyString EmptyString false false.

(** [createHistoryState]: the array, the settings object and the
    selected object are copied, which on values is the identity. *)
Definition createHistoryState (comps : list FormComponent) (settings : FormSettings)
    (selected : option FormComponent) : HistoryState :=
  HistoryState.mk comps settings selected.

Definition snapshot (state : FormBuilderState) : HistoryState :=
  createHistoryState (components state) (formSettings state) (selectedComponent state).

(** ** The store's actions *)

(** [pushToHistory]: the entries after the cursor are dropped, the
    snapshot of the state as it is now is appended, and the last 50
    entries are kept. *)
Definition pushToHistory (state : FormBuilderState) : FormBuilderState :=
  let newHistoryState := snapshot state in
  let newHistory :=
    slice 0 (Some (currentHistoryIndex state + 1)) (history state)
      ++ [newHistoryState] in
  let limitedHistory := slice (-50) None newHistory in
  mkState (components state) (selectedComponent state) (formSettings state)
          (isPreviewMode state) limitedHistory
          (Z.of_nat (length limitedHistory) - 1) (recentlyDeleted state).

Definition initialState : FormBuilderState :=
  mkState [] None initialFormSettings false
          [createHistoryState [] initialFormSettings None] 0 None.

(** Functional update of single properties, as zustand's [set] merges a
    partial state into the current one. *)
Definition set_document (comps : list FormComponent)
    (selected : option FormComponent) (deleted : option RecentlyDeleted)
    (state : FormBuilderState) : FormBuilderState :=
  mkState comps selected (formSettings state) (isPreviewMode state)
          (history state) (currentHistoryIndex state) deleted.

Definition id_is (id : string) (comp : FormComponent) : bool :=
  String.eqb (FormComponent.id comp) id.

(** [state.selectedComponent?.id === id] *)
Definition selected_is (id : string) (selected : option FormComponent) : bool :=
  match selected with
  | Some comp => id_is id comp
  | None => false
  end.

Definition addComponent (component : FormComponent) (state0 : FormBuilderState)
  : FormBuilderState :=
  let state := pushToHistory state0 in
  set_document (components state ++ [component]) (selectedComponent state) None state.

Definition updateComponent (id : string) (updates : PartialFormComponent)
    (state0 : FormBuilderState) : FormBuilderState :=
  let state := pushToHistory state0 in
  set_document
    (map (fun comp => if id_is id comp then spreadComponent comp updates else comp)
         (components state))
    (if selected_is id (selectedComponent state)
     then option_map (fun sel => spreadComponent sel updates) (selectedComponent state)
     else selectedComponent state)
    None state.

(** [now] is the value of [Date.now()] at the call. *)
Definition removeComponent (now : Z) (id : string) (state : FormBuilderState)
  : FormBuilderState :=
  let componentIndex := findIndex (id_is id) (components state) in
  match at_index (components state) componentIndex with
  | Some componentToDelete =>
      set_document
        (filter (fun comp => negb (id_is id comp)) (components state))
        (if selected_is id (selectedComponent state) then None
         else selectedComponent state)
        (Some (RecentlyDeleted.mk componentToDelete componentIndex now))
        (pushToHistory state)
  | None => state
  end.

Definition selectComponent (component : option FormComponent)
    (state : FormBuilderState) : FormBuilderState :=
  set_document (components state) component (recentlyDeleted state) state.

Definition reorderComponents (comps : list FormComponent)
    (state0 : FormBuilderState) : FormBuilderState :=
  let state := pushToHistory state0 in
  set_document comps (selectedComponent state) None state.

Definition updateFormSettings (settings : PartialFormSettings)
    (state0 : FormBuilderState) : FormBuilderState :=
  let state := pushToHistory state0 in
  mkState (components state) (selectedComponent state)
          (spreadSettings (formSettings state) settings)
          (isPreviewMode state) (history state) (currentHistoryIndex state) None.

Definition setPreviewMode (isPreview : bool) (state : FormBuilderState)
  : FormBuilderState :=
  mkState (components state) (selectedComponent state) (formSettings state)
          isPreview (history state) (currentHistoryIndex state)
          (recentlyDeleted state).

Definition reset (_ : FormBuilderState) : FormBuilderState :=
  let resetState := createHistoryState [] initialFormSettings None in
  mkState [] None initialFormSettings false [resetState] 0 None.

(** The state after [undo] or [redo] moved the cursor to [newIndex]. *)
Definition restore (historyState : HistoryState) (newIndex : Z)
    (state : FormBuilderState) : FormBuilderState :=
  mkState (HistoryState.components historyState)
          (HistoryState.selectedComponent historyState)
          (HistoryState.formSettings historyState)
          (isPreviewMode state) (history state) newIndex None.

(** [undo] and [redo] return the boolean and the next state.  Reading a
    property of [state.history[newIndex]] when that entry is [undefined]
    throws a TypeError before [set] is called: the result is [None]. *)
Definition undo (state : FormBuilderState) : option (bool * FormBuilderState) :=
  if 0 <? currentHistoryIndex state then
    let newIndex := currentHistoryIndex state - 1 in
    match at_index (history state) newIndex with
    | Some historyState => Some (true, restore historyState newIndex state)
    | None => None
    end
  else Some (false, state).

Definition redo (state : FormBuilderState) : option (bool * FormBuilderState) :=
  if currentHistoryIndex state <? Z.of_nat (length (history state)) - 1 then
    let newIndex := currentHistoryIndex state + 1 in
    match at_index (history state) newIndex with
    | Some historyState => Some (true, restore historyState newIndex state)
    | None => None
    end
  else Some (false, state).

Definition canUndo (state : FormBuilderState) : bool :=
  0 <? currentHistoryIndex state.

Definition canRedo (state : FormBuilderState) : bool :=
  currentHistoryIndex state <? Z.of_nat (length (history state)) - 1.

Definition undoDelete (state : FormBuilderState) : FormBuilderState :=
  match recentlyDeleted state with
  | Some deleted =>
      let newComponents :=
        splice_insert (RecentlyDeleted.index deleted)
                      (RecentlyDeleted.component deleted) (components state) in
      set_document newComponents (selectedComponent state) None state
  | None => state
  end.

Definition clearRecentlyDeleted (state : FormBuilderState) : FormBuilderState :=
  set_document (components state) (selectedComponent state) None state.

(** ** The store as a transition system *)

Inductive Action : Type :=
| AddComponent (component : FormComponent)
| UpdateComponent (id : string) (updates : PartialFormComponent)
| RemoveComponent (now : Z) (id : string)
| SelectComponent (component : option FormComponent)
| ReorderComponents (comps : list FormComponent)
| UpdateFormSettings (settings : PartialFormSettings)
| SetPreviewMode (isPreview : bool)
| Reset
| Undo
| Redo
| UndoDelete
| ClearRecentlyDeleted.

(** One call of an action; [None] when the call throws. *)
Definition step (state : FormBuilderState) (a : Action) : option FormBuilderState :=
  match a with
  | AddComponent component => Some (addComponent component state)
  | UpdateComponent id updates => Some (updateComponent id updates state)
  | RemoveComponent now id => Some (removeComponent now id state)
  | SelectComponent component => Some (selectComponent component state)
  | ReorderComponents comps => Some (reorderComponents comps state)
  | UpdateFormSettings settings => Some (updateFormSettings settings state)
  | SetPreviewMode isPreview => Some (setPreviewMode isPreview state)
  | Reset => Some (reset state)
  | Undo => option_map snd (undo state)
  | Redo => option_map snd (redo state)
  | UndoDelete => Some (undoDelete state)
  | ClearRecentlyDeleted => Some (clearRecentlyDeleted state)
  end.

Fixpoint run (state : FormBuilderState) (actions : list Action)
  : option FormBuilderState :=
  match actions with
  | [] => Some state
  | a :: rest =>
      match step state a with
      | Some state' => run state' rest
      | None => None
      end
  end.

(** [comps] holds a component whose id is [id]. *)
Definition has_id (id : string) (comps : list FormComponent) : bool :=
  existsb (id_is id) comps.

(** The edits that are not a removal. *)
Definition edits (a : Action) : bool :=
  match a with
  | AddComponent _ | UpdateComponent _ _ | ReorderComponents _
  | UpdateFormSettings _ => true
  | _ => false
  end.

(** The structural mutations: the calls that push a history entry.
    [removeComponent] is one when the id names a component. *)
Definition structural (state : FormBuilderState) (a : Action) : bool :=
  match a with
  | RemoveComponent _ id => has_id id (components state)
  | _ => edits a
  end.

(** The document: what a history entry records. *)
Definition document (state : FormBuilderState) : HistoryState := snapshot state.

(** The invariant of the history. *)
Definition history_ok (state : FormBuilderState) : Prop :=
  0 <= currentHistoryIndex state < Z.of_nat (length (history state))
  /\ (length (history state) <= 50)%nat.

(** ** Sample documents *)

Definition f1 : FormComponent :=
  FormComponent.mk "f1" "text" "Name" None None None.
Definition f2 : FormComponent :=
  FormComponent.mk "f2" "select" "Color" None None
                   (Some ["Red"%string; "Blue"%string]).
Definition f3 : FormComponent :=
  FormComponent.mk "f3" "email" "Mail" None None None.
Definition require_it : PartialFormComponent :=
  PartialFormComponent.mk None None None None (Some (Some true)) None.
Definition relabel (new : string) : PartialFormComponent :=
  PartialFormComponent.mk None None (Some new) None None None.

(** The state a list of actions leads to from the initial one. *)
Definition after (actions : list Action) : FormBuilderState :=
  match run initialState actions with
  | Some state => state
  | None => initialState
  end.

(** Three fields added, one step undone: the cursor is strictly inside
    the history. *)
Definition midState : FormBuilderState :=
  Eval vm_compute in
    after [AddComponent f1; AddComponent f2; AddComponent f3; Undo].

(** Sixty fields added: the history is at its cap. *)
Definition fullState : FormBuilderState :=
  Eval vm_compute in after (repeat (AddComponent f1) 60).

(** Both sample fields in the document. *)
Definition twoFields : FormBuilderState :=
  Eval vm_compute in after [AddComponent f1; AddComponent f2].

(** ** Further predicates on the store *)

(** The document is the entry under the cursor.  The initial state is
    so, and so is every state [undo] or [redo] restored. *)
Definition synced (state : FormBuilderState) : Prop :=
  at_index (history state) (currentHistoryIndex state) = Some (document state).

(** The recently-deleted record fits the component list: its index is a
    position of the list (the end included) and no component has the id
    of the recorded one. *)
Definition slot_ok (state : FormBuilderState) : Prop :=
  match recentlyDeleted state with
  | Some deleted =>
      0 <= RecentlyDeleted.index deleted <= Z.of_nat (length (components state))
      /\ has_id (FormComponent.id (RecentlyDeleted.component deleted))
                (components state) = false
  | None => True
  end.

(** The actions that replace the history: the structural mutations and
    [reset]. *)
Definition rewrites_history (state : FormBuilderState) (a : Action) : bool :=
  match a with
  | Reset => true
  | _ => structural state a
  end.

(** The actions that write [isPreviewMode]. *)
Definition writes_preview (a : Action) : bool :=
  match a with
  | SetPreviewMode _ | Reset => true
  | _ => false
  end.

Definition only_undo_redo (a : Action) : bool :=
  match a with
  | Undo | Redo => true
  | _ => false
  end.

(** ** The builder page (src/pages/Builder.tsx) *)

(** The page reads [isPreviewMode], [selectedComponent] and
    [formSettings] from the store and hands the store's actions to its
    children. *)
Definition handleTogglePreview (state : FormBuilderState) : FormBuilderState :=
  setPreviewMode (negb (isPreviewMode state)) state.

Definition handleUpdateComponent (id : string) (updates : PartialFormComponent)
    (state : FormBuilderState) : FormBuilderState :=
  updateComponent id updates state.

Definition handleUpdateFormSettings (updates : PartialFormSettings)
    (state : FormBuilderState) : FormBuilderState :=
  updateFormSettings updates state.

(** ** The header's keyboard shortcuts (src/components/builder/Header.tsx) *)

Module KeyboardEvent.
Record t : Type := mk {
  ctrlKey : bool;
  metaKey : bool;
  shiftKey : bool;
  key : string
}.
End KeyboardEvent.
Abbreviation KeyboardEvent := KeyboardEvent.t.

(** The calls [handleKeyDown] makes, in order. *)
Inductive KeyCall : Type :=
| PreventDefault
| CallUndo
| CallRedo
| CallOnTogglePreview.

(** The three [if] statements of [handleKeyDown] run one after the
    other; none is an [else] of another. *)
Definition handleKeyDown (e : KeyboardEvent) : list KeyCall :=
  let ctrl := KeyboardEvent.ctrlKey e || KeyboardEvent.metaKey e in
  (if ctrl && String.eqb (KeyboardEvent.key e) "z"
         && negb (KeyboardEvent.shiftKey e)
   then [PreventDefault; CallUndo] else [])
  ++ (if (ctrl && KeyboardEvent.shiftKey e && String.eqb (KeyboardEvent.key e) "Z")
         || (ctrl && String.eqb (KeyboardEvent.key e) "y")
      then [PreventDefault; CallRedo] else [])
  ++ (if ctrl && String.eqb (KeyboardEvent.key e) "p"
      then [PreventDefault; CallOnTogglePreview] else []).

(** What a call does to the store; [None] when it throws. *)
Definition key_call (state : FormBuilderState) (c : KeyCall)
  : option FormBuilderState :=
  match c with
  | PreventDefault => Some state
  | CallUndo => step state Undo
  | CallRedo => step state Redo
  | CallOnTogglePreview => Some (handleTogglePreview state)
  end.

Fixpoint key_calls (state : FormBuilderState) (calls : list KeyCall)
  : option FormBuilderState :=
  match calls with
  | [] => Some state
  | c :: rest =>
      match key_call state c with
      | Some state' => key_calls state' rest
      | None => None
      end
  end.

(** ** The properties panel (PropertiesPanel) *)

Section JsArrayIndexed.
Variable A : Type.

(** [l.filter((x, i) => p x i)], with [i] the index of [x] in [l]. *)
Fixpoint filter_from (p : A -> Z -> bool) (i : Z) (l : list A) : list A :=
  match l with
  | [] => []
  | x :: r => if p x i then x :: filter_from p (i + 1) r
              else filter_from p (i + 1) r
  end.

Definition filter_indexed (p : A -> Z -> bool) (l : list A) : list A :=
  filter_from p 0 l.

End JsArrayIndexed.

(** The decimal digits of a length, as a template literal prints it. *)
Definition string_of_length (n : nat) : string :=
  NilEmpty.string_of_uint (Nat.to_uint n).

(** A call of [onUpdateComponent(id, updates)]. *)
Definition UpdateCall : Type := (string * PartialFormComponent)%type.

Definition no_updates : PartialFormComponent :=
  PartialFormComponent.mk None None None None None None.

(** The handlers of the panel, for the [selectedComponent] it was given
    and with [onUpdateComponent] present, as the builder page passes
    it.  A handler makes one call of [onUpdateComponent] or none. *)
Definition handleLabelChange (value : string)
    (selected : option FormComponent) : option UpdateCall :=
  match selected with
  | Some comp =>
      Some (FormComponent.id comp,
            PartialFormComponent.mk None None (Some value) None None None)
  | None => None
  end.

Definition handlePlaceholderChange (value : string)
    (selected : option FormComponent) : option UpdateCall :=
  match selected with
  | Some comp =>
      Some (FormComponent.id comp,
            PartialFormComponent.mk None None None (Some (Some value)) None None)
  | None => None
  end.

Definition handleRequiredChange (value : bool)
    (selected : option FormComponent) : option UpdateCall :=
  match selected with
  | Some comp =>
      Some (FormComponent.id comp,
            PartialFormComponent.mk None None None None (Some (Some value)) None)
  | None => None
  end.

Definition handleOptionsChange (opts : list string)
    (selected : option FormComponent) : option UpdateCall :=
  match selected with
  | Some comp =>
      Some (FormComponent.id comp,
            PartialFormComponent.mk None None None None None (Some (Some opts)))
  | None => None
  end.

(** [selectedComponent.options || []] *)
Definition currentOptions (comp : FormComponent) : list string :=
  match FormComponent.options comp with
  | Some opts => opts
  | None => []
  end.

Definition addOption (selected : option FormComponent) : option UpdateCall :=
  match selected with
  | Some comp =>
      let current := currentOptions comp in
      handleOptionsChange
        (current ++ [String.append "Option "
                       (string_of_length (length current + 1))])
        selected
  | None => None
  end.

Definition removeOption (index : Z) (selected : option FormComponent)
  : option UpdateCall :=
  match selected with
  | Some comp =>
      let current := currentOptions comp in
      handleOptionsChange
        (filter_indexed (fun _ i => negb (i =? index)) current) selected
  | None => None
  end.

(** The calls [handleFormSettingChange(field, value)] of the panel: the
    key and a value of the key's type. *)
Inductive SettingChange : Type :=
| ChangeTitle (value : string)
| ChangeDescription (value : string)
| ChangeRequireLogin (value : bool)
| ChangeCollectEmail (value : bool).

(** [{ [field]: value }] *)
Definition handleFormSettingChange (change : SettingChange) : PartialFormSettings :=
  match change with
  | ChangeTitle v => PartialFormSettings.mk (Some v) None None None
  | ChangeDescription v => PartialFormSettings.mk None (Some v) None None
  | ChangeRequireLogin v => PartialFormSettings.mk None None (Some v) None
  | ChangeCollectEmail v => PartialFormSettings.mk None None None (Some v)
  end.

(** The panel inside the builder page: its [selectedComponent] is the
    store's, and its call goes to [updateComponent]. *)
Definition panel (handler : option FormComponent -> option UpdateCall)
    (state : FormBuilderState) : FormBuilderState :=
  match handler (selectedComponent state) with
  | Some (id, updates) => handleUpdateComponent id updates state
  | None => state
  end.

(** The options of the selection, as the panel lists them. *)
Definition selectedOptions (state : FormBuilderState) : list string :=
  match selectedComponent state with
  | Some comp => currentOptions comp
  | None => []
  end.

(** ** Facts on the array primitives *)

Section JsArrayFacts.
Variable A : Type.
Implicit Types (l : list A) (n : nat) (i : Z).

Lemma slice_negative n l :
  (0 < n)%nat -> slice (- Z.of_nat n) None l = keep_last n l.
Proof.
  intros Hn. unfold slice, keep_last, relative_index.
  assert (Hneg : (- Z.of_nat n <? 0) = true) by (apply Z.ltb_lt; lia).
  rewrite Hneg.
  replace (Z.to_nat (Z.max (Z.of_nat (length l) + - Z.of_nat n) 0))
    with (length l - n)%nat by lia.
  apply firstn_all2. rewrite length_skipn. lia.
Qed.

Lemma length_keep_last n l : length (keep_last n l) = Nat.min (length l) n.
Proof. unfold keep_last. rewrite length_skipn. lia. Qed.

Lemma keep_last_short n l : (length l <= n)%nat -> keep_last n l = l.
Proof.
  intros H. unfold keep_last.
  replace (length l - n)%nat with 0%nat by lia. reflexivity.
Qed.

(** [l.slice(0, i + 1)] for a cursor [i] inside [l]. *)
Lemma slice_prefix i l :
  0 <= i < Z.of_nat (length l) ->
  slice 0 (Some (i + 1)) l = firstn (S (Z.to_nat i)) l.
Proof.
  intros Hi. unfold slice, relative_index.
  assert (H1 : (i + 1 <? 0) = false) by (apply Z.ltb_ge; lia).
  rewrite H1. change (0 <? 0) with false. cbv iota.
  replace (Z.min 0 (Z.of_nat (length l))) with 0 by lia.
  simpl skipn. f_equal. lia.
Qed.

Lemma at_index_nth_error i l :
  0 <= i -> at_index l i = nth_error l (Z.to_nat i).
Proof.
  intros Hi. unfold at_index.
  assert (H : (i <? 0) = false) by (apply Z.ltb_ge; lia).
  now rewrite H.
Qed.

Lemma at_index_in_range i l :
  0 <= i < Z.of_nat (length l) -> exists x, at_index l i = Some x.
Proof.
  intros Hi. rewrite at_index_nth_error by lia.
  destruct (nth_error l (Z.to_nat i)) eqn:E; [eauto|].
  apply nth_error_None in E. lia.
Qed.

Lemma at_index_last l x :
  at_index (l ++ [x]) (Z.of_nat (length (l ++ [x])) - 1) = Some x.
Proof.
  rewrite at_index_nth_error by (rewrite length_app; simpl; lia).
  rewrite length_app. simpl.
  replace (Z.to_nat (Z.of_nat (length l + 1) - 1)) with (length l) by lia.
  rewrite nth_error_app2 by lia. now rewrite Nat.sub_diag.
Qed.

Lemma keep_last_snoc n l x :
  (0 < n)%nat -> exists l', keep_last n (l ++ [x]) = l' ++ [x].
Proof.
  intros Hn. unfold keep_last. rewrite length_app. simpl.
  exists (skipn (length l + 1 - n) l).
  rewrite skipn_app.
  replace (length l + 1 - n - length l)%nat with 0%nat by lia.
  reflexivity.
Qed.

(** At the cap, pushing drops exactly the oldest entry. *)
Lemma keep_last_full n l x :
  (0 < n)%nat -> length l = n -> keep_last n (l ++ [x]) = tl l ++ [x].
Proof.
  intros Hn H. unfold keep_last. rewrite length_app. simpl.
  replace (length l + 1 - n)%nat with 1%nat by lia.
  destruct l; [simpl in H; lia | reflexivity].
Qed.

End JsArrayFacts.

(** ** Facts on [pushToHistory] *)

Lemma pushToHistory_history state :
  history (pushToHistory state) =
  keep_last 50
    (slice 0 (Some (currentHistoryIndex state + 1)) (history state)
       ++ [snapshot state]).
Proof.
  unfold pushToHistory. cbn [history].
  now rewrite <- (@slice_negative _ 50) by lia.
Qed.

Lemma pushToHistory_cursor state :
  currentHistoryIndex (pushToHistory state) =
  Z.of_nat (length (history (pushToHistory state))) - 1.
Proof. reflexivity. Qed.

Lemma pushToHistory_length state :
  (1 <= length (history (pushToHistory state)) <= 50)%nat.
Proof.
  rewrite pushToHistory_history, length_keep_last, length_app. simpl. lia.
Qed.

Lemma pushToHistory_document state :
  document (pushToHistory state) = document state.
Proof. reflexivity. Qed.

(** The entry under the cursor after a push is the snapshot of the
    state before the mutation that follows. *)
Lemma pushToHistory_top state :
  at_index (history (pushToHistory state))
           (currentHistoryIndex (pushToHistory state)) = Some (snapshot state).
Proof.
  rewrite pushToHistory_cursor, pushToHistory_history.
  destruct (@keep_last_snoc _ 50
              (slice 0 (Some (currentHistoryIndex state + 1)) (history state))
              (snapshot state)) as [l' Hl']; [lia|].
  rewrite Hl'. apply at_index_last.
Qed.

Lemma pushToHistory_ok state : history_ok (pushToHistory state).
Proof.
  unfold history_ok. rewrite pushToHistory_cursor.
  pose proof (pushToHistory_length state). lia.
Qed.

(** Inside the invariant the push keeps the entries up to the cursor. *)
Lemma pushToHistory_history_ok state :
  history_ok state ->
  history (pushToHistory state) =
  keep_last 50
    (firstn (S (Z.to_nat (currentHistoryIndex state))) (history state)
       ++ [snapshot state]).
Proof.
  intros [Hi _]. now rewrite pushToHistory_history, slice_prefix.
Qed.

(** ** Facts on searching the component list *)

Section FindIndexFacts.
Variable A : Type.
Variable p : A -> bool.

Lemma findIndex_none (l : list A) :
  existsb p l = false -> findIndex p l = -1.
Proof.
  induction l as [|x r IH]; simpl; [reflexivity|].
  intros H. apply orb_false_iff in H as [Hx Hr].
  rewrite Hx, (IH Hr). reflexivity.
Qed.

Lemma findIndex_some (l : list A) :
  existsb p l = true ->
  exists x, 0 <= findIndex p l < Z.of_nat (length l)
            /\ at_index l (findIndex p l) = Some x /\ p x = true.
Proof.
  induction l as [|x r IH]; simpl; [discriminate|].
  destruct (p x) eqn:Hx; simpl.
  - intros _. exists x. repeat split; try lia. assumption.
  - intros Hr. destruct (IH Hr) as (y & Hi & Hy & Hpy).
    assert (Hge : (findIndex p r <? 0) = false) by (apply Z.ltb_ge; lia).
    rewrite Hge. exists y. repeat split; try lia; [|assumption].
    rewrite at_index_nth_error in * by lia.
    replace (Z.to_nat (findIndex p r + 1)) with (S (Z.to_nat (findIndex p r)))
      by lia.
    exact Hy.
Qed.

(** The index of an element appended to a list without a match. *)
Lemma findIndex_snoc (l : list A) (x : A) :
  existsb p l = false -> p x = true ->
  findIndex p (l ++ [x]) = Z.of_nat (length l).
Proof.
  intros Hl Hx. induction l as [|y r IH]; simpl.
  - now rewrite Hx.
  - simpl in Hl. apply orb_false_iff in Hl as [Hy Hr].
    rewrite Hy, (IH Hr).
    assert (Hge : (Z.of_nat (length r) <? 0) = false) by (apply Z.ltb_ge; lia).
    rewrite Hge. lia.
Qed.

Lemma filter_none (l : list A) :
  existsb p l = false -> filter (fun x => negb (p x)) l = l.
Proof.
  induction l as [|x r IH]; simpl; [reflexivity|].
  intros H. apply orb_false_iff in H as [Hx Hr].
  rewrite Hx. simpl. now rewrite (IH Hr).
Qed.

Lemma filter_snoc (l : list A) (x : A) :
  existsb p l = false -> p x = true ->
  filter (fun y => negb (p y)) (l ++ [x]) = l.
Proof.
  intros Hl Hx. rewrite filter_app, (filter_none _ Hl). simpl.
  rewrite Hx. simpl. apply app_nil_r.
Qed.

Lemma map_none (f : A -> A) (l : list A) :
  existsb p l = false -> map (fun x => if p x then f x else x) l = l.
Proof.
  induction l as [|x r IH]; simpl; [reflexivity|].
  intros H. apply orb_false_iff in H as [Hx Hr].
  now rewrite Hx, (IH Hr).
Qed.

End FindIndexFacts.

Lemma splice_insert_end (A : Type) (l : list A) (x : A) :
  splice_insert (Z.of_nat (length l)) x l = l ++ [x].
Proof.
  unfold splice_insert, relative_index.
  assert (H : (Z.of_nat (length l) <? 0) = false) by (apply Z.ltb_ge; lia).
  rewrite H, Z.min_id, Nat2Z.id, firstn_all, skipn_all. reflexivity.
Qed.

Lemma at_index_snoc (A : Type) (l : list A) (x : A) :
  at_index (l ++ [x]) (Z.of_nat (length l)) = Some x.
Proof.
  rewrite at_index_nth_error by lia.
  rewrite Nat2Z.id, nth_error_app2 by lia. now rewrite Nat.sub_diag.
Qed.

Lemma id_is_refl (comp : FormComponent) : id_is (FormComponent.id comp) comp = true.
Proof. apply String.eqb_refl. Qed.

(** ** The actions and the history *)

(** A structural mutation always goes through, and its history and
    cursor are those [pushToHistory] left. *)
Lemma structural_step state a :
  structural state a = true ->
  exists state', step state a = Some state'
    /\ history state' = history (pushToHistory state)
    /\ currentHistoryIndex state' = currentHistoryIndex (pushToHistory state).
Proof.
  destruct a; simpl; try discriminate; intros H;
    try (eexists; split; [reflexivity|split; reflexivity]).
  unfold has_id in H. destruct (findIndex_some _ _ H) as (x & _ & Hx & _).
  exists (removeComponent now id state). unfold removeComponent.
  rewrite Hx. repeat split.
Qed.

Lemma undo_in_range state :
  history_ok state -> 0 < currentHistoryIndex state ->
  exists historyState,
    at_index (history state) (currentHistoryIndex state - 1) = Some historyState
    /\ undo state =
       Some (true, restore historyState (currentHistoryIndex state - 1) state).
Proof.
  intros [Hi _] Hpos.
  destruct (@at_index_in_range _ (currentHistoryIndex state - 1) (history state))
    as [h Hh]; [lia|].
  exists h. split; [exact Hh|]. unfold undo.
  apply Z.ltb_lt in Hpos. now rewrite Hpos, Hh.
Qed.

Lemma redo_in_range state :
  history_ok state ->
  currentHistoryIndex state < Z.of_nat (length (history state)) - 1 ->
  exists historyState,
    at_index (history state) (currentHistoryIndex state + 1) = Some historyState
    /\ redo state =
       Some (true, restore historyState (currentHistoryIndex state + 1) state).
Proof.
  intros [Hi _] Hlt.
  destruct (@at_index_in_range _ (currentHistoryIndex state + 1) (history state))
    as [h Hh]; [lia|].
  exists h. split; [exact Hh|]. unfold redo.
  apply Z.ltb_lt in Hlt. now rewrite Hlt, Hh.
Qed.

Lemma undo_at_start state :
  ~ 0 < currentHistoryIndex state -> undo state = Some (false, state).
Proof.
  intros H. unfold undo.
  assert (E : (0 <? currentHistoryIndex state) = false) by (apply Z.ltb_ge; lia).
  now rewrite E.
Qed.

Lemma redo_at_tip state :
  ~ currentHistoryIndex state < Z.of_nat (length (history state)) - 1 ->
  redo state = Some (false, state).
Proof.
  intros H. unfold redo.
  assert (E : (currentHistoryIndex state <? Z.of_nat (length (history state)) - 1)
              = false) by (apply Z.ltb_ge; lia).
  now rewrite E.
Qed.

(** Every action keeps the invariant of the history, and none throws
    inside it. *)
Lemma step_history_ok state a :
  history_ok state -> exists state', step state a = Some state' /\ history_ok state'.
Proof.
  intros Hok.
  destruct (structural state a) eqn:Hs.
  - destruct (structural_step _ _ Hs) as (s' & Hstep & Hh & Hc).
    exists s'. split; [exact Hstep|].
    unfold history_ok. rewrite Hh, Hc. apply pushToHistory_ok.
  - destruct a; simpl in Hs; try discriminate; simpl.
    + (* removeComponent, no such id *)
      exists state. split; [|exact Hok].
      unfold removeComponent, has_id in *.
      rewrite (findIndex_none _ _ Hs). reflexivity.
    + eexists; split; [reflexivity|exact Hok].
    + eexists; split; [reflexivity|exact Hok].
    + eexists; split; [reflexivity|]. unfold history_ok; simpl; lia.
    + (* undo *)
      destruct (Z_lt_dec 0 (currentHistoryIndex state)) as [Hpos|Hnpos].
      * destruct (undo_in_range Hok Hpos) as (h & _ & ->). simpl.
        eexists; split; [reflexivity|].
        destruct Hok as [Hi Hl]. unfold history_ok; simpl; lia.
      * rewrite (undo_at_start _ Hnpos). simpl. eauto.
    + (* redo *)
      destruct (Z_lt_dec (currentHistoryIndex state)
                  (Z.of_nat (length (history state)) - 1)) as [Hlt|Hnlt].
      * destruct (redo_in_range Hok Hlt) as (h & _ & ->). simpl.
        eexists; split; [reflexivity|].
        destruct Hok as [Hi Hl]. unfold history_ok; simpl; lia.
      * rewrite (redo_at_tip _ Hnlt). simpl. eauto.
    + (* undoDelete *)
      exists (undoDelete state). split; [reflexivity|].
      unfold undoDelete. destruct (recentlyDeleted state); exact Hok.
    + eexists; split; [reflexivity|exact Hok].
Qed.

Lemma run_history_ok actions : forall state,
  history_ok state -> exists state', run state actions = Some state' /\ history_ok state'.
Proof.
  induction actions as [|a rest IH]; intros state Hok; simpl.
  - eauto.
  - destruct (step_history_ok a Hok) as (s1 & -> & Hok1). now apply IH.
Qed.

Lemma initialState_ok : history_ok initialState.
Proof. unfold history_ok; simpl; lia. Qed.

(** ** The history invariant *)

(** C4. Every action of the store keeps [0 <= currentHistoryIndex <
    history.length] and [history.length <= 50], so the invariant holds
    after any run of actions from a state that has it (the initial state
    does); a structural mutation keeps the entries up to the cursor,
    appends one and keeps the last 50, and at the cap that drops exactly
    the oldest entry. *)
Theorem history_invariant (state : FormBuilderState) :
  history_ok state ->
  (forall a, exists state', step state a = Some state' /\ history_ok state')
  /\ (forall actions,
        exists state', run state actions = Some state' /\ history_ok state')
  /\ (forall a, structural state a = true ->
        exists state', step state a = Some state'
          /\ history state' =
             keep_last 50
               (firstn (S (Z.to_nat (currentHistoryIndex state))) (history state)
                  ++ [snapshot state])
          /\ (currentHistoryIndex state = 49 ->
              history state' = tl (history state) ++ [snapshot state])).
Proof.
  intros Hok. split; [|split].
  - intros a. now apply step_history_ok.
  - intros actions. now apply run_history_ok.
  - intros a Hs. destruct (structural_step _ _ Hs) as (s' & Hstep & Hh & _).
    exists s'. split; [exact Hstep|].
    rewrite Hh, (pushToHistory_history_ok Hok). split; [reflexivity|].
    intros Hcap. destruct Hok as [Hi Hl].
    assert (Hlen : length (history state) = 50%nat) by lia.
    rewrite Hcap. change (S (Z.to_nat 49)) with 50%nat.
    rewrite <- Hlen at 2. rewrite firstn_all.
    apply keep_last_full; [lia|exact Hlen].
Qed.

Lemma history_invariant_witness :
  history_ok fullState
  /\ (exists state', run fullState [AddComponent f2; Undo; Redo; Reset] = Some state'
                     /\ history_ok state')
  /\ (exists state', step fullState (AddComponent f2) = Some state'
                     /\ history state' = tl (history fullState) ++ [snapshot fullState]).
Proof.
  assert (Hok : history_ok fullState) by (unfold history_ok; simpl; lia).
  destruct (history_invariant Hok) as (_ & Hrun & Hcap).
  split; [exact Hok|]. split; [apply Hrun|].
  destruct (Hcap (AddComponent f2) eq_refl) as (s' & Hs & _ & Ht).
  exists s'. split; [exact Hs|]. now apply Ht.
Defined.

(** C10. After a structural mutation the cursor is the last index of the
    history, so [canRedo] is false (and [redo] changes nothing). *)
Theorem mutation_leaves_no_redo (state : FormBuilderState) (a : Action) :
  structural state a = true ->
  exists state', step state a = Some state'
    /\ currentHistoryIndex state' = Z.of_nat (length (history state')) - 1
    /\ canRedo state' = false
    /\ redo state' = Some (false, state').
Proof.
  intros Hs. destruct (structural_step _ _ Hs) as (s' & Hstep & Hh & Hc).
  exists s'. split; [exact Hstep|].
  assert (Htip : currentHistoryIndex s' = Z.of_nat (length (history s')) - 1)
    by (rewrite Hc, Hh; apply pushToHistory_cursor).
  split; [exact Htip|]. split.
  - unfold canRedo. apply Z.ltb_ge. lia.
  - apply redo_at_tip. lia.
Qed.

Lemma mutation_leaves_no_redo_witness :
  structural midState (RemoveComponent 7 "f1") = true
  /\ exists state', step midState (RemoveComponent 7 "f1") = Some state'
       /\ currentHistoryIndex state' = Z.of_nat (length (history state')) - 1
       /\ canRedo state' = false
       /\ redo state' = Some (false, state').
Proof.
  split; [reflexivity|].
  apply (@mutation_leaves_no_redo midState (RemoveComponent 7 "f1")).
  reflexivity.
Defined.

(** ** Guards of undo and redo *)

(** C5. Inside the history invariant, [undo] returns true and changes
    the state exactly when [currentHistoryIndex > 0], and otherwise
    returns false and leaves the whole state as it is; [redo] does the
    same for [currentHistoryIndex < history.length - 1]; [canUndo] and
    [canRedo] are those two conditions. *)
Theorem undo_redo_guards (state : FormBuilderState) :
  history_ok state ->
  (canUndo state = true <-> 0 < currentHistoryIndex state)
  /\ (canRedo state = true <->
      currentHistoryIndex state < Z.of_nat (length (history state)) - 1)
  /\ ((0 < currentHistoryIndex state
       /\ exists state', undo state = Some (true, state') /\ state' <> state)
      \/ (~ 0 < currentHistoryIndex state /\ undo state = Some (false, state)))
  /\ ((currentHistoryIndex state < Z.of_nat (length (history state)) - 1
       /\ exists state', redo state = Some (true, state') /\ state' <> state)
      \/ (~ currentHistoryIndex state < Z.of_nat (length (history state)) - 1
          /\ redo state = Some (false, state))).
Proof.
  intros Hok. repeat split.
  - unfold canUndo. apply Z.ltb_lt.
  - unfold canUndo. apply Z.ltb_lt.
  - unfold canRedo. apply Z.ltb_lt.
  - unfold canRedo. apply Z.ltb_lt.
  - destruct (Z_lt_dec 0 (currentHistoryIndex state)) as [Hpos|Hnpos].
    + left. split; [exact Hpos|].
      destruct (undo_in_range Hok Hpos) as (h & _ & Hu).
      eexists. split; [exact Hu|].
      intros E. apply (f_equal currentHistoryIndex) in E. simpl in E. lia.
    + right. split; [exact Hnpos|]. now apply undo_at_start.
  - destruct (Z_lt_dec (currentHistoryIndex state)
                (Z.of_nat (length (history state)) - 1)) as [Hlt|Hnlt].
    + left. split; [exact Hlt|].
      destruct (redo_in_range Hok Hlt) as (h & _ & Hr).
      eexists. split; [exact Hr|].
      intros E. apply (f_equal currentHistoryIndex) in E. simpl in E. lia.
    + right. split; [exact Hnlt|]. now apply redo_at_tip.
Qed.

Lemma undo_redo_guards_witness :
  history_ok midState
  /\ (canUndo midState = true <-> 0 < currentHistoryIndex midState)
  /\ (canRedo midState = true <->
      currentHistoryIndex midState < Z.of_nat (length (history midState)) - 1)
  /\ ((0 < currentHistoryIndex midState
       /\ exists state', undo midState = Some (true, state') /\ state' <> midState)
      \/ (~ 0 < currentHistoryIndex midState
          /\ undo midState = Some (false, midState)))
  /\ ((currentHistoryIndex midState < Z.of_nat (length (history midState)) - 1
       /\ exists state', redo midState = Some (true, state') /\ state' <> midState)
      \/ (~ currentHistoryIndex midState < Z.of_nat (length (history midState)) - 1
          /\ redo midState = Some (false, midState))).
Proof.
  assert (Hok : history_ok midState) by (unfold history_ok; simpl; lia).
  split; [exact Hok|]. exact (undo_redo_guards Hok).
Defined.

(** ** Removal, update and the recently-deleted slot *)

(** C6. With an id that names no component, [removeComponent] returns
    the state as it is, history and cursor included, while
    [updateComponent] leaves the component list as it is and still
    pushes a history entry: the snapshot of the state is the new last
    entry, under the cursor. *)
Theorem remove_guarded_update_pushes (state : FormBuilderState) (now : Z)
    (id : string) (updates : PartialFormComponent) :
  has_id id (components state) = false ->
  removeComponent now id state = state
  /\ components (updateComponent id updates state) = components state
  /\ history (updateComponent id updates state) =
     keep_last 50
       (slice 0 (Some (currentHistoryIndex state + 1)) (history state)
          ++ [snapshot state])
  /\ currentHistoryIndex (updateComponent id updates state) =
     Z.of_nat (length (history (updateComponent id updates state))) - 1
  /\ at_index (history (updateComponent id updates state))
              (currentHistoryIndex (updateComponent id updates state))
     = Some (snapshot state).
Proof.
  intros Hid. unfold has_id in Hid. repeat split.
  - unfold removeComponent. now rewrite (findIndex_none _ _ Hid).
  - unfold updateComponent. cbn [components set_document pushToHistory].
    now apply map_none.
  - apply pushToHistory_history.
  - apply pushToHistory_top.
Qed.

Lemma remove_guarded_update_pushes_witness :
  has_id "f9" (components midState) = false
  /\ removeComponent 7 "f9" midState = midState
  /\ components (updateComponent "f9" require_it midState) = components midState
  /\ length (history (updateComponent "f9" require_it midState)) = 4%nat
  /\ at_index (history (updateComponent "f9" require_it midState)) 3
     = Some (snapshot midState).
Proof.
  split; [reflexivity|].
  destruct (@remove_guarded_update_pushes midState 7 "f9" require_it eq_refl)
    as (Hr & Hc & Hh & _ & Ht).
  split; [exact Hr|]. split; [exact Hc|]. split; [now rewrite Hh|exact Ht].
Defined.

(** C7. For a field [F] whose id is not in the document, [addComponent F],
    [removeComponent F.id], [undoDelete] gives back the component list
    that [addComponent F] produced, with [F] at its original index;
    [removeComponent] records [F], that index and the time in the
    recently-deleted slot, and [undoDelete] empties the slot and leaves
    history and cursor as they were. *)
Theorem delete_restore (state : FormBuilderState) (F : FormComponent) (now : Z) :
  has_id (FormComponent.id F) (components state) = false ->
  let added := addComponent F state in
  let removed := removeComponent now (FormComponent.id F) added in
  let restored := undoDelete removed in
  components added = components state ++ [F]
  /\ recentlyDeleted removed =
     Some (RecentlyDeleted.mk F (Z.of_nat (length (components state))) now)
  /\ components removed = components state
  /\ components restored = components added
  /\ at_index (components restored) (Z.of_nat (length (components state))) = Some F
  /\ recentlyDeleted restored = None
  /\ history restored = history removed
  /\ currentHistoryIndex restored = currentHistoryIndex removed.
Proof.
  intros Hid added removed restored. unfold has_id in Hid.
  assert (Hadd : components added = components state ++ [F]) by reflexivity.
  assert (Hrem : removed =
            set_document (components state) 
              (if selected_is (FormComponent.id F) (selectedComponent added)
               then None else selectedComponent added)
              (Some (RecentlyDeleted.mk F (Z.of_nat (length (components state))) now))
              (pushToHistory added)).
  { unfold removed, removeComponent. rewrite Hadd.
    rewrite (findIndex_snoc _ _ _ Hid (id_is_refl F)), at_index_snoc.
    now rewrite (filter_snoc _ _ _ Hid (id_is_refl F)). }
  assert (Hres : components restored = components state ++ [F]).
  { unfold restored, undoDelete. rewrite Hrem. cbn.
    apply splice_insert_end. }
  split; [exact Hadd|]. split; [now rewrite Hrem|]. split; [now rewrite Hrem|].
  split; [now rewrite Hres|]. split; [rewrite Hres; apply at_index_snoc|].
  unfold restored, undoDelete. rewrite Hrem. repeat split.
Qed.

Lemma delete_restore_witness :
  has_id "f2" (components midState) = false
  /\ components (undoDelete (removeComponent 7 "f2" (addComponent f2 midState)))
     = [f1; f2]
  /\ recentlyDeleted (removeComponent 7 "f2" (addComponent f2 midState))
     = Some (RecentlyDeleted.mk f2 1 7).
Proof.
  split; [reflexivity|].
  destruct (@delete_restore midState f2 7 eq_refl) as (Ha & Hd & _ & Hr & _).
  split; [exact (eq_trans Hr Ha)|exact Hd].
Defined.

(** A second removal is a structural mutation too, and it does not empty
    the slot: it overwrites it, and [undoDelete] then reinserts. *)
Lemma remove_after_remove :
  let removed := removeComponent 1 "f1" twoFields in
  structural removed (RemoveComponent 2 "f2") = true
  /\ step removed (RemoveComponent 2 "f2")
     = Some (removeComponent 2 "f2" removed)
  /\ recentlyDeleted (removeComponent 2 "f2" removed)
     = Some (RecentlyDeleted.mk f2 0 2)
  /\ components (removeComponent 2 "f2" removed) = []
  /\ components (undoDelete (removeComponent 2 "f2" removed)) = [f2].
Proof. repeat split. Qed.

(** C8, as stated, fails: not every structural mutation after a removal
    empties the recently-deleted slot, and [undoDelete] after such a
    mutation is not always without effect. *)
Lemma not_every_mutation_clears_deleted :
  ~ (forall (state : FormBuilderState) (now : Z) (id : string) (a : Action)
            (state' : FormBuilderState),
        structural (removeComponent now id state) a = true ->
        step (removeComponent now id state) a = Some state' ->
        recentlyDeleted state' = None /\ undoDelete state' = state').
Proof.
  intros H.
  destruct remove_after_remove as (Hs & Hstep & Hd & _).
  destruct (H twoFields 1 "f1"%string (RemoveComponent 2 "f2") _ Hs Hstep)
    as [Hnone _].
  rewrite Hd in Hnone. discriminate.
Qed.

(** C8, amended. Every structural mutation other than a removal
    ([addComponent], [updateComponent], [reorderComponents],
    [updateFormSettings]) made after a [removeComponent] empties the
    recently-deleted slot, so [undoDelete] after it returns the state as
    it is; in particular after [removeComponent F.id], [addComponent G]. *)
Theorem edit_clears_deleted (state : FormBuilderState) (now : Z) (id : string)
    (a : Action) :
  edits a = true ->
  exists state', step (removeComponent now id state) a = Some state'
    /\ recentlyDeleted state' = None
    /\ undoDelete state' = state'.
Proof.
  intros Ha.
  assert (Hgen : forall s, exists s', step s a = Some s'
                                      /\ recentlyDeleted s' = None).
  { intros s. destruct a; try discriminate; eexists; split; reflexivity. }
  destruct (Hgen (removeComponent now id state)) as (s' & Hstep & Hnone).
  exists s'. split; [exact Hstep|]. split; [exact Hnone|].
  unfold undoDelete. now rewrite Hnone.
Qed.

Lemma edit_clears_deleted_witness :
  edits (AddComponent f3) = true
  /\ recentlyDeleted (removeComponent 1 "f1" twoFields)
     = Some (RecentlyDeleted.mk f1 0 1)
  /\ exists state',
       step (removeComponent 1 "f1" twoFields) (AddComponent f3) = Some state'
       /\ recentlyDeleted state' = None
       /\ undoDelete state' = state'.
Proof.
  split; [reflexivity|]. split; [reflexivity|].
  apply (@edit_clears_deleted twoFields 1 "f1" (AddComponent f3)). reflexivity.
Defined.

(** ** Selection *)

(** C9. For a field [X] of the document, after [selectComponent X] and
    [updateComponent X.id {label: new}] the selection is the updated
    field: its label is [new], and it is the field the component list
    now holds in place of [X]. *)
Theorem selection_follows_update (state : FormBuilderState) (X : FormComponent)
    (new : string) :
  In X (components state) ->
  let state' :=
    updateComponent (FormComponent.id X) (relabel new)
                    (selectComponent (Some X) state) in
  selectedComponent state' = Some (spreadComponent X (relabel new))
  /\ option_map FormComponent.label (selectedComponent state') = Some new
  /\ In (spreadComponent X (relabel new)) (components state').
Proof.
  intros Hin state'.
  assert (Hsel : selectedComponent state' = Some (spreadComponent X (relabel new))).
  { unfold state', updateComponent. cbn. now rewrite id_is_refl. }
  split; [exact Hsel|]. split; [now rewrite Hsel|].
  unfold state', updateComponent. cbn.
  apply in_map_iff. exists X. split; [|exact Hin].
  now rewrite id_is_refl.
Qed.

Lemma selection_follows_update_witness :
  In f2 (components twoFields)
  /\ option_map FormComponent.label
       (selectedComponent
          (updateComponent "f2" (relabel "new")
             (selectComponent (Some f2) twoFields)))
     = Some "new"%string.
Proof.
  assert (Hin : In f2 (components twoFields)) by (right; left; reflexivity).
  split; [exact Hin|].
  exact (proj1 (proj2 (@selection_follows_update twoFields f2 "new" Hin))).
Defined.

(** ** Undo and redo after mutations *)

(** The entry pushed for a mutation is the snapshot taken before it, and
    the state the mutation produces is in no entry.  So from the tip,
    [undo] lands one entry below the pre-mutation snapshot, and [redo]
    comes back to the pre-mutation snapshot, not to the state the
    mutation produced. *)
Lemma undo_redo_after_mutation (state : FormBuilderState) (a : Action) :
  history_ok state -> structural state a = true ->
  exists s1 s2 s3,
    step state a = Some s1
    /\ undo s1 = Some (true, s2)
    /\ redo s2 = Some (true, s3)
    /\ document s3 = document state
    /\ canRedo s3 = false.
Proof.
  intros Hok Hs.
  destruct (structural_step _ _ Hs) as (s1 & Hstep & Hh & Hc).
  assert (Hok1 : history_ok s1).
  { unfold history_ok. rewrite Hh, Hc. apply pushToHistory_ok. }
  assert (Htop : at_index (history s1) (currentHistoryIndex s1)
                 = Some (snapshot state))
    by (rewrite Hh, Hc; apply pushToHistory_top).
  assert (Hlen : (2 <= length (history s1))%nat).
  { rewrite Hh, (pushToHistory_history_ok Hok), length_keep_last, length_app,
      length_firstn. destruct Hok as [Hi _]. cbn [length]. lia. }
  assert (Htip : currentHistoryIndex s1 = Z.of_nat (length (history s1)) - 1)
    by (rewrite Hc, Hh; apply pushToHistory_cursor).
  destruct (undo_in_range Hok1) as (h & _ & Hu); [lia|].
  set (s2 := restore h (currentHistoryIndex s1 - 1) s1) in *.
  assert (Hr : redo s2 = Some (true, restore (snapshot state)
                                       (currentHistoryIndex s1) s2)).
  { unfold redo. cbn [s2 restore currentHistoryIndex history].
    assert (E : (currentHistoryIndex s1 - 1 <?
                 Z.of_nat (length (history s1)) - 1) = true)
      by (apply Z.ltb_lt; lia).
    rewrite E. replace (currentHistoryIndex s1 - 1 + 1)
      with (currentHistoryIndex s1) by lia.
    now rewrite Htop. }
  exists s1, s2, (restore (snapshot state) (currentHistoryIndex s1) s2).
  repeat split; try assumption.
  unfold canRedo. cbn [s2 restore currentHistoryIndex history].
  apply Z.ltb_ge. lia.
Qed.

(** C1, at one mutation: after [addComponent f1] on the initial store,
    one [undo] and one [redo] both succeed, and the document is then the
    empty one the mutation started from, not the document with [f1] the
    mutation produced; no further [redo] is possible. *)
Theorem undo_redo_loses_last_mutation :
  exists s1 s2 s3,
    step initialState (AddComponent f1) = Some s1
    /\ undo s1 = Some (true, s2)
    /\ redo s2 = Some (true, s3)
    /\ components s1 = [f1]
    /\ components s3 = []
    /\ document s3 <> document s1
    /\ redo s3 = Some (false, s3).
Proof.
  do 3 eexists. repeat split; try reflexivity. discriminate.
Qed.

(** C2, the scenario of the specification run on the code: after the two
    additions and the update, [undo] yields the document that holds [f1]
    alone, [f2] being gone, and [redo] then yields [f1; f2] with
    [required] still absent on [f1]. *)
Theorem scenario_undo_redo :
  exists s3 s4 s5,
    run initialState
        [AddComponent f1; AddComponent f2; UpdateComponent "f1" require_it]
    = Some s3
    /\ components s3 = [spreadComponent f1 require_it; f2]
    /\ undo s3 = Some (true, s4)
    /\ components s4 = [f1]
    /\ has_id "f2" (components s4) = false
    /\ redo s4 = Some (true, s5)
    /\ components s5 = [f1; f2]
    /\ map FormComponent.required (components s5) = [None; None]
    /\ redo s5 = Some (false, s5).
Proof.
  do 3 eexists. repeat split; reflexivity.
Qed.

(** C3, on the code: with S0 the empty document, S1 = [f1] and
    S2 = [f1; f2], one [undo] from S2 yields S0 (not S1), and the
    mutation [addComponent f3] then leaves a history of three entries
    that all record S0; neither S1 nor the result of the mutation is an
    entry. *)
Theorem branch_history_entries :
  exists s2 s3 s4,
    run initialState [AddComponent f1; AddComponent f2] = Some s2
    /\ components s2 = [f1; f2]
    /\ undo s2 = Some (true, s3)
    /\ currentHistoryIndex s3 = 1
    /\ components s3 = []
    /\ step s3 (AddComponent f3) = Some s4
    /\ components s4 = [f3]
    /\ map HistoryState.components (history s4) = [[]; []; []]
    /\ redo s4 = Some (false, s4).
Proof.
  do 3 eexists. repeat split; reflexivity.
Qed.

(** ** What leaves the history and the preview flag alone *)

Lemma document_restore (h : HistoryState) (i : Z) (state : FormBuilderState) :
  document (restore h i state) = h.
Proof. now destruct h. Qed.

Lemma undo_history state b state' :
  undo state = Some (b, state') -> history state' = history state
                                   /\ isPreviewMode state' = isPreviewMode state.
Proof.
  unfold undo. destruct (0 <? currentHistoryIndex state).
  - destruct (at_index (history state) (currentHistoryIndex state - 1));
      [|discriminate].
    intros E. inversion E. now subst.
  - intros E. inversion E. now subst.
Qed.

Lemma redo_history state b state' :
  redo state = Some (b, state') -> history state' = history state
                                   /\ isPreviewMode state' = isPreviewMode state.
Proof.
  unfold redo.
  destruct (currentHistoryIndex state <? Z.of_nat (length (history state)) - 1).
  - destruct (at_index (history state) (currentHistoryIndex state + 1));
      [|discriminate].
    intros E. inversion E. now subst.
  - intros E. inversion E. now subst.
Qed.

Lemma remove_missing state now id :
  has_id id (components state) = false -> removeComponent now id state = state.
Proof.
  intros H. unfold removeComponent, has_id in *.
  now rewrite (findIndex_none _ _ H).
Qed.

(** Only the structural mutations and [reset] change the entries of the
    history: after any other action ([removeComponent] of an id that
    names no component, [selectComponent], [setPreviewMode], [undo],
    [redo], [undoDelete], [clearRecentlyDeleted]) the history is the
    same list, and except for [undo] and [redo] the cursor, and with it
    [canUndo] and [canRedo], is the same too. *)
Theorem history_kept (state state' : FormBuilderState) (a : Action) :
  rewrites_history state a = false ->
  step state a = Some state' ->
  history state' = history state
  /\ (only_undo_redo a = false ->
      currentHistoryIndex state' = currentHistoryIndex state
      /\ canUndo state' = canUndo state
      /\ canRedo state' = canRedo state).
Proof.
  intros Hr Hstep.
  destruct a; simpl in Hr; try discriminate; simpl in Hstep.
  - rewrite (remove_missing _ _ _ Hr) in Hstep. inversion Hstep. now subst.
  - inversion Hstep. now subst.
  - inversion Hstep. now subst.
  - destruct (undo state) as [[b s1]|] eqn:E; [|discriminate].
    simpl in Hstep. inversion Hstep. subst.
    split; [apply (undo_history _ E)|discriminate].
  - destruct (redo state) as [[b s1]|] eqn:E; [|discriminate].
    simpl in Hstep. inversion Hstep. subst.
    split; [apply (redo_history _ E)|discriminate].
  - inversion Hstep. subst. unfold undoDelete.
    destruct (recentlyDeleted state); now repeat split.
  - inversion Hstep. now subst.
Qed.

Lemma history_kept_witness :
  rewrites_history midState UndoDelete = false
  /\ step midState UndoDelete = Some (undoDelete midState)
  /\ history (undoDelete midState) = history midState
  /\ currentHistoryIndex (undoDelete midState) = 2.
Proof.
  destruct (@history_kept midState (undoDelete midState) UndoDelete
              eq_refl eq_refl) as [Hh Hc].
  split; [reflexivity|]. split; [reflexivity|]. split; [exact Hh|].
  now destruct (Hc eq_refl) as [-> _].
Defined.

Lemma step_preview state state' a :
  writes_preview a = false -> step state a = Some state' ->
  isPreviewMode state' = isPreviewMode state.
Proof.
  intros Hw Hstep. destruct a; simpl in Hw; try discriminate; simpl in Hstep;
    try (inversion Hstep; now subst).
  - inversion Hstep. subst. unfold removeComponent.
    now destruct (at_index _ _).
  - destruct (undo state) as [[b s1]|] eqn:E; [|discriminate].
    inversion Hstep. subst. apply (undo_history _ E).
  - destruct (redo state) as [[b s1]|] eqn:E; [|discriminate].
    inversion Hstep. subst. apply (redo_history _ E).
  - inversion Hstep. subst. unfold undoDelete.
    now destruct (recentlyDeleted state).
Qed.

(** The preview flag is outside the history: a run of actions without
    [setPreviewMode] and [reset] ends with the flag it started with,
    whatever it edits, undoes or redoes. *)
Theorem preview_mode_kept (actions : list Action) :
  forall state state' : FormBuilderState,
  forallb (fun a => negb (writes_preview a)) actions = true ->
  run state actions = Some state' ->
  isPreviewMode state' = isPreviewMode state.
Proof.
  induction actions as [|a rest IH]; intros state state' Hall Hrun; simpl in *.
  - inversion Hrun. now subst.
  - apply andb_true_iff in Hall as [Ha Hrest].
    apply negb_true_iff in Ha.
    destruct (step state a) as [s1|] eqn:E; [|discriminate].
    rewrite (IH _ _ Hrest Hrun). now apply (step_preview _ _ Ha E).
Qed.

Lemma preview_mode_kept_witness :
  forallb (fun a => negb (writes_preview a))
          [AddComponent f3; Undo; Undo; Redo; RemoveComponent 3 "f1"] = true
  /\ exists state',
       run (setPreviewMode true midState)
           [AddComponent f3; Undo; Undo; Redo; RemoveComponent 3 "f1"]
       = Some state'
       /\ isPreviewMode state' = true.
Proof.
  split; [reflexivity|].
  eexists. split; [reflexivity|].
  apply (@preview_mode_kept
           [AddComponent f3; Undo; Undo; Redo; RemoveComponent 3 "f1"]
           (setPreviewMode true midState) _ eq_refl eq_refl).
Defined.

(** ** Undo and redo as inverse moves *)



Lemma at_index_keep_last_second (A : Type) (n : nat) (l : list A) :
  (2 <= n)%nat -> (2 <= length l)%nat ->
  at_index (keep_last n l) (Z.of_nat (length (keep_last n l)) - 2)
  = at_index l (Z.of_nat (length l) - 2).
Proof.
  intros Hn Hl.
  rewrite !at_index_nth_error by (rewrite ?length_keep_last; lia).
  rewrite length_keep_last. unfold keep_last. rewrite nth_error_skipn.
  f_equal. lia.
Qed.

(** A structural mutation followed by [undo] restores the entry that was
    under the cursor before the mutation.  When the document was that
    entry (in the initial state, or after an [undo] or a [redo]) this is
    the document the mutation started from. *)
Theorem mutation_then_undo (state : FormBuilderState) (a : Action) :
  history_ok state -> structural state a = true ->
  exists mutated undone entry,
    step state a = Some mutated
    /\ undo mutated = Some (true, undone)
    /\ at_index (history state) (currentHistoryIndex state) = Some entry
    /\ document undone = entry
    /\ (synced state -> document undone = document state).
Proof.
  intros Hok Hs.
  destruct (structural_step _ _ Hs) as (s1 & Hstep & Hh & Hc).
  assert (Hok1 : history_ok s1).
  { unfold history_ok. rewrite Hh, Hc. apply pushToHistory_ok. }
  pose proof Hok as [Hi _].
  destruct (at_index_in_range (history state) Hi) as [entry Hentry].
  set (M := firstn (S (Z.to_nat (currentHistoryIndex state))) (history state)
              ++ [snapshot state]).
  assert (HM : length M = S (S (Z.to_nat (currentHistoryIndex state)))).
  { unfold M. rewrite length_app, length_firstn. cbn [length]. lia. }
  assert (Hhist : history s1 = keep_last 50 M)
    by (rewrite Hh; apply (pushToHistory_history_ok Hok)).
  assert (Htip : currentHistoryIndex s1 = Z.of_nat (length (history s1)) - 1)
    by (rewrite Hc, Hh; apply pushToHistory_cursor).
  assert (Hbelow : at_index (history s1) (currentHistoryIndex s1 - 1)
                   = Some entry).
  { rewrite Htip, Hhist.
    replace (Z.of_nat (length (keep_last 50 M)) - 1 - 1)
      with (Z.of_nat (length (keep_last 50 M)) - 2) by lia.
    rewrite at_index_keep_last_second by lia.
    rewrite at_index_nth_error by lia. rewrite HM.
    replace (Z.to_nat (Z.of_nat (S (S (Z.to_nat (currentHistoryIndex state)))) - 2))
      with (Z.to_nat (currentHistoryIndex state)) by lia.
    unfold M. rewrite nth_error_app1 by (rewrite length_firstn; lia).
    rewrite nth_error_firstn.
    assert (E : (Z.to_nat (currentHistoryIndex state)
                 <? S (Z.to_nat (currentHistoryIndex state)))%nat = true)
      by (apply Nat.ltb_lt; lia).
    rewrite E. rewrite <- at_index_nth_error by lia. exact Hentry. }
  assert (Hpos : 0 < currentHistoryIndex s1).
  { rewrite Htip, Hhist, length_keep_last, HM. lia. }
  destruct (undo_in_range Hok1 Hpos) as (h & Hh' & Hu).
  rewrite Hbelow in Hh'. inversion Hh'. subst h.
  eexists s1, _, entry. split; [exact Hstep|]. split; [exact Hu|].
  split; [exact Hentry|]. split; [apply document_restore|].
  intros Hsync. unfold synced in Hsync. rewrite document_restore.
  congruence.
Qed.

Lemma mutation_then_undo_witness :
  history_ok midState /\ structural midState (RemoveComponent 5 "f1") = true
  /\ synced midState
  /\ exists mutated undone,
       step midState (RemoveComponent 5 "f1") = Some mutated
       /\ components mutated = []
       /\ undo mutated = Some (true, undone)
       /\ document undone = document midState.
Proof.
  assert (Hok : history_ok midState) by (unfold history_ok; simpl; lia).
  assert (Hs : synced midState) by reflexivity.
  split; [exact Hok|]. split; [reflexivity|]. split; [exact Hs|].
  destruct (@mutation_then_undo midState (RemoveComponent 5 "f1") Hok eq_refl)
    as (s1 & s2 & e & Hstep & Hu & _ & _ & Hd).
  exists s1, s2. split; [exact Hstep|]. split.
  - inversion Hstep. reflexivity.
  - split; [exact Hu|]. now apply Hd.
Defined.



(** ** Removal and reinsertion in general *)

Section RemoveFacts.
Variable A : Type.
Variable p : A -> bool.

Lemma existsb_filter_negb (l : list A) :
  existsb p (filter (fun x => negb (p x)) l) = false.
Proof.
  induction l as [|x r IH]; simpl; [reflexivity|].
  destruct (p x) eqn:Hx; simpl; [exact IH|]. now rewrite Hx.
Qed.

(** The first match sits after elements that all survive the filter. *)
Lemma findIndex_le_filter (l : list A) :
  existsb p l = true ->
  0 <= findIndex p l
    <= Z.of_nat (length (filter (fun x => negb (p x)) l)).
Proof.
  induction l as [|x r IH]; simpl; [discriminate|].
  destruct (p x) eqn:Hx; simpl; [lia|].
  intros Hr. specialize (IH Hr).
  assert (Hge : (findIndex p r <? 0) = false) by (apply Z.ltb_ge; lia).
  rewrite Hge. lia.
Qed.

Lemma findIndex_middle (pre post : list A) (x : A) :
  existsb p pre = false -> p x = true ->
  findIndex p (pre ++ x :: post) = Z.of_nat (length pre).
Proof.
  intros Hpre Hx. induction pre as [|y r IH]; simpl.
  - now rewrite Hx.
  - simpl in Hpre. apply orb_false_iff in Hpre as [Hy Hr].
    rewrite Hy, (IH Hr).
    assert (Hge : (Z.of_nat (length r) <? 0) = false) by (apply Z.ltb_ge; lia).
    rewrite Hge. lia.
Qed.

Lemma filter_middle (pre post : list A) (x : A) :
  existsb p pre = false -> p x = true -> existsb p post = false ->
  filter (fun y => negb (p y)) (pre ++ x :: post) = pre ++ post.
Proof.
  intros Hpre Hx Hpost. rewrite filter_app. simpl. rewrite Hx. simpl.
  now rewrite (filter_none _ _ Hpre), (filter_none _ _ Hpost).
Qed.

Lemma at_index_middle (pre post : list A) (x : A) :
  at_index (pre ++ x :: post) (Z.of_nat (length pre)) = Some x.
Proof.
  rewrite at_index_nth_error by lia.
  rewrite Nat2Z.id, nth_error_app2 by lia. now rewrite Nat.sub_diag.
Qed.

Lemma splice_insert_in_range (i : Z) (x : A) (l : list A) :
  0 <= i <= Z.of_nat (length l) ->
  splice_insert i x l = firstn (Z.to_nat i) l ++ x :: skipn (Z.to_nat i) l.
Proof.
  intros Hi. unfold splice_insert, relative_index.
  assert (E : (i <? 0) = false) by (apply Z.ltb_ge; lia).
  rewrite E. now replace (Z.min i (Z.of_nat (length l))) with i by lia.
Qed.

Lemma splice_insert_middle (pre post : list A) (x : A) :
  splice_insert (Z.of_nat (length pre)) x (pre ++ post) = pre ++ x :: post.
Proof.
  rewrite splice_insert_in_range by (rewrite length_app; lia).
  rewrite Nat2Z.id, firstn_app, skipn_app, Nat.sub_diag, firstn_all, skipn_all.
  simpl. now rewrite app_nil_r.
Qed.

End RemoveFacts.

(** [removeComponent] leaves no component with the given id, also when
    several had it; the components it keeps are those with another id;
    and when some component had the id, the selection does not have it
    afterwards. *)
Theorem remove_purges_id (state : FormBuilderState) (now : Z) (id : string) :
  has_id id (components (removeComponent now id state)) = false
  /\ (forall comp,
        In comp (components (removeComponent now id state))
        <-> In comp (components state) /\ FormComponent.id comp <> id)
  /\ (has_id id (components state) = true ->
      selected_is id (selectedComponent (removeComponent now id state)) = false).
Proof.
  assert (Hcomps : components (removeComponent now id state)
                   = filter (fun comp => negb (id_is id comp)) (components state)).
  { destruct (has_id id (components state)) eqn:Hid.
    - unfold has_id in Hid. destruct (findIndex_some _ _ Hid) as (x & _ & Hx & _).
      unfold removeComponent. now rewrite Hx.
    - rewrite (remove_missing _ _ _ Hid). unfold has_id in Hid.
      now rewrite (filter_none _ _ Hid). }
  split; [|split].
  - rewrite Hcomps. apply existsb_filter_negb.
  - intros comp. rewrite Hcomps, filter_In. unfold id_is.
    rewrite negb_true_iff, String.eqb_neq. reflexivity.
  - intros Hid. unfold has_id in Hid.
    destruct (findIndex_some _ _ Hid) as (x & _ & Hx & _).
    unfold removeComponent. rewrite Hx. cbn [selectedComponent set_document].
    destruct (selected_is id (selectedComponent state)) eqn:E;
      [reflexivity|exact E].
Qed.

(** A component whose id no other component has is removed from where
    it is, recorded with its index, and put back by [undoDelete] in the
    same place: the component list is the one before the removal.  The
    selection that the removal emptied is not brought back, and the
    history keeps the entry the removal pushed. *)
Theorem remove_then_undoDelete (state : FormBuilderState) (now : Z)
    (pre post : list FormComponent) (comp : FormComponent) :
  components state = pre ++ comp :: post ->
  has_id (FormComponent.id comp) pre = false ->
  has_id (FormComponent.id comp) post = false ->
  let removed := removeComponent now (FormComponent.id comp) state in
  components removed = pre ++ post
  /\ recentlyDeleted removed =
     Some (RecentlyDeleted.mk comp (Z.of_nat (length pre)) now)
  /\ components (undoDelete removed) = components state
  /\ selectedComponent (undoDelete removed) =
     (if selected_is (FormComponent.id comp) (selectedComponent state)
      then None else selectedComponent state)
  /\ history (undoDelete removed) = history (pushToHistory state)
  /\ recentlyDeleted (undoDelete removed) = None.
Proof.
  intros Hcomps Hpre Hpost removed. unfold has_id in *.
  assert (Hrem : removed =
            set_document (pre ++ post)
              (if selected_is (FormComponent.id comp) (selectedComponent state)
               then None else selectedComponent state)
              (Some (RecentlyDeleted.mk comp (Z.of_nat (length pre)) now))
              (pushToHistory state)).
  { unfold removed, removeComponent. rewrite Hcomps.
    rewrite (@findIndex_middle _ _ pre post comp Hpre (id_is_refl comp)),
      at_index_middle.
    now rewrite (@filter_middle _ _ pre post comp Hpre (id_is_refl comp) Hpost). }
  split; [now rewrite Hrem|]. split; [now rewrite Hrem|].
  unfold undoDelete. rewrite Hrem. cbn.
  rewrite splice_insert_middle, Hcomps. repeat split.
Qed.

Lemma remove_then_undoDelete_witness :
  components twoFields = [] ++ f1 :: [f2]
  /\ has_id "f1" [] = false /\ has_id "f1" [f2] = false
  /\ components (removeComponent 4 "f1" twoFields) = [f2]
  /\ components (undoDelete (removeComponent 4 "f1" twoFields)) = [f1; f2].
Proof.
  destruct (@remove_then_undoDelete twoFields 4 [] [f2] f1 eq_refl eq_refl eq_refl)
    as (Hr & _ & Hu & _).
  split; [reflexivity|]. split; [reflexivity|]. split; [reflexivity|].
  split; [exact Hr|exact Hu].
Defined.

Lemma step_slot_ok (state state' : FormBuilderState) (a : Action) :
  slot_ok state -> step state a = Some state' -> slot_ok state'.
Proof.
  intros Hok Hstep. destruct a; simpl in Hstep;
    try (inversion Hstep; subst; exact I);
    try (inversion Hstep; subst; exact Hok).
  - (* removeComponent *)
    inversion Hstep. subst. clear Hstep.
    destruct (has_id id (components state)) eqn:Hid.
    + unfold has_id in Hid.
      destruct (findIndex_some _ _ Hid) as (x & _ & Hx & Hpx).
      unfold removeComponent. rewrite Hx. unfold slot_ok.
      cbn [recentlyDeleted components set_document
           RecentlyDeleted.index RecentlyDeleted.component].
      split; [apply (findIndex_le_filter _ _ Hid)|].
      unfold id_is in Hpx. apply String.eqb_eq in Hpx. rewrite Hpx.
      apply existsb_filter_negb.
    + now rewrite (remove_missing _ _ _ Hid).
  - (* undo *)
    unfold undo in Hstep. destruct (0 <? currentHistoryIndex state).
    + destruct (at_index _ _); [|discriminate].
      inversion Hstep. subst. exact I.
    + inversion Hstep. now subst.
  - (* redo *)
    unfold redo in Hstep. destruct (_ <? _).
    + destruct (at_index _ _); [|discriminate].
      inversion Hstep. subst. exact I.
    + inversion Hstep. now subst.
  - (* undoDelete *)
    inversion Hstep. subst. unfold undoDelete.
    destruct (recentlyDeleted state) eqn:E; [exact I|exact Hok].
Qed.

(** The recently-deleted record never drifts: after any run of actions
    from a state where it fits (the initial state has none), the
    recorded index is still a position of the component list and no
    component has the recorded id, so [undoDelete] inserts the recorded
    component exactly at the recorded index, never clamped. *)
Theorem deleted_slot_fits (actions : list Action) :
  forall state state' : FormBuilderState,
  slot_ok state ->
  run state actions = Some state' ->
  slot_ok state'
  /\ forall deleted, recentlyDeleted state' = Some deleted ->
       components (undoDelete state') =
         firstn (Z.to_nat (RecentlyDeleted.index deleted)) (components state')
         ++ RecentlyDeleted.component deleted
            :: skipn (Z.to_nat (RecentlyDeleted.index deleted)) (components state')
       /\ at_index (components (undoDelete state'))
                   (RecentlyDeleted.index deleted)
          = Some (RecentlyDeleted.component deleted).
Proof.
  induction actions as [|a rest IH]; intros state state' Hok Hrun; simpl in Hrun.
  - inversion Hrun. subst. split; [exact Hok|].
    intros deleted Hd. unfold slot_ok in Hok. rewrite Hd in Hok.
    destruct Hok as [Hi _].
    assert (Hcomps : components (undoDelete state') =
              firstn (Z.to_nat (RecentlyDeleted.index deleted)) (components state')
              ++ RecentlyDeleted.component deleted
                 :: skipn (Z.to_nat (RecentlyDeleted.index deleted))
                          (components state')).
    { unfold undoDelete. rewrite Hd. cbn [components set_document].
      now apply splice_insert_in_range. }
    split; [exact Hcomps|]. rewrite Hcomps.
    replace (RecentlyDeleted.index deleted)
      with (Z.of_nat (length (firstn (Z.to_nat (RecentlyDeleted.index deleted))
                                     (components state')))) at 3
      by (rewrite length_firstn; lia).
    apply at_index_middle.
  - destruct (step state a) as [s1|] eqn:E; [|discriminate].
    apply (IH s1 state' (@step_slot_ok state s1 a Hok E) Hrun).
Qed.

Lemma deleted_slot_fits_witness :
  slot_ok initialState
  /\ exists state',
       run initialState
           [AddComponent f1; AddComponent f2; AddComponent f3;
            RemoveComponent 9 "f2"; SelectComponent (Some f3);
            SetPreviewMode true] = Some state'
       /\ recentlyDeleted state' = Some (RecentlyDeleted.mk f2 1 9)
       /\ components (undoDelete state') = [f1; f2; f3].
Proof.
  split; [exact I|]. eexists. split; [reflexivity|]. split; [reflexivity|].
  destruct (@deleted_slot_fits
              [AddComponent f1; AddComponent f2; AddComponent f3;
               RemoveComponent 9 "f2"; SelectComponent (Some f3);
               SetPreviewMode true] initialState _ I eq_refl) as [_ H].
  destruct (H _ eq_refl) as [Hc _]. exact Hc.
Defined.

Lemma filter_negb_shorter (A : Type) (p : A -> bool) (l : list A) :
  existsb p l = true ->
  (length (filter (fun x => negb (p x)) l) < length l)%nat.
Proof.
  induction l as [|x r IH]; simpl; [discriminate|].
  destruct (p x) eqn:Hx; simpl.
  - intros _. pose proof (filter_length_le (fun x => negb (p x)) r). lia.
  - intros Hr. specialize (IH Hr). lia.
Qed.

(** The store accepts components that share an id.  Removing by such an
    id deletes every component that has it, records the first one only,
    and [undoDelete] brings back that one: the list stays strictly
    shorter than it was. *)
Theorem remove_duplicates_lost (state : FormBuilderState) (now : Z) (id : string)
    (pre post : list FormComponent) (comp : FormComponent) :
  components state = pre ++ comp :: post ->
  has_id id pre = false -> id_is id comp = true -> has_id id post = true ->
  let removed := removeComponent now id state in
  recentlyDeleted removed = Some (RecentlyDeleted.mk comp (Z.of_nat (length pre)) now)
  /\ has_id id (components removed) = false
  /\ (length (components (undoDelete removed)) < length (components state))%nat.
Proof.
  intros Hcomps Hpre Hc Hpost removed. unfold has_id in *.
  assert (Hrem : removed =
            set_document
              (pre ++ filter (fun c => negb (id_is id c)) post)
              (if selected_is id (selectedComponent state)
               then None else selectedComponent state)
              (Some (RecentlyDeleted.mk comp (Z.of_nat (length pre)) now))
              (pushToHistory state)).
  { unfold removed, removeComponent. rewrite Hcomps.
    rewrite (@findIndex_middle _ _ pre post comp Hpre Hc), at_index_middle.
    rewrite filter_app. simpl. rewrite Hc. simpl.
    now rewrite (filter_none _ _ Hpre). }
  split; [now rewrite Hrem|]. split.
  - rewrite Hrem. cbn [components set_document].
    rewrite existsb_app, Hpre. simpl. apply existsb_filter_negb.
  - unfold undoDelete. rewrite Hrem. cbn.
    rewrite splice_insert_middle, Hcomps, !length_app. simpl.
    pose proof (filter_negb_shorter _ _ Hpost). lia.
Qed.

Lemma remove_duplicates_lost_witness :
  components (addComponent f1 twoFields) = [] ++ f1 :: [f2; f1]
  /\ has_id "f1" [] = false /\ id_is "f1" f1 = true /\ has_id "f1" [f2; f1] = true
  /\ components (undoDelete (removeComponent 6 "f1" (addComponent f1 twoFields)))
     = [f1; f2]
  /\ (length (components (undoDelete
                 (removeComponent 6 "f1" (addComponent f1 twoFields))))
      < length (components (addComponent f1 twoFields)))%nat.
Proof.
  destruct (@remove_duplicates_lost (addComponent f1 twoFields) 6 "f1" [] [f2; f1] f1
              eq_refl eq_refl eq_refl eq_refl) as (_ & _ & Hlt).
  split; [reflexivity|]. split; [reflexivity|]. split; [reflexivity|].
  split; [reflexivity|]. split; [reflexivity|exact Hlt].
Defined.

(** ** Updates *)

(** An update without an [id] key keeps the ids of the components, in
    order, and at every index the component is the old one, merged with
    the updates when it has the given id. *)
Theorem update_keeps_ids (state : FormBuilderState) (id : string)
    (updates : PartialFormComponent) :
  PartialFormComponent.id updates = None ->
  map FormComponent.id (components (updateComponent id updates state))
  = map FormComponent.id (components state)
  /\ forall i comp,
       at_index (components state) i = Some comp ->
       at_index (components (updateComponent id updates state)) i
       = Some (if id_is id comp then spreadComponent comp updates else comp).
Proof.
  intros Hid. unfold updateComponent. cbn [components set_document pushToHistory].
  split.
  - rewrite map_map. apply map_ext. intros comp.
    destruct (id_is id comp); [|reflexivity].
    unfold spreadComponent. cbn. now rewrite Hid.
  - intros i comp. unfold at_index. destruct (i <? 0); [discriminate|].
    rewrite nth_error_map. now intros ->.
Qed.

Lemma update_keeps_ids_witness :
  PartialFormComponent.id (relabel "Title") = None
  /\ map FormComponent.id (components (updateComponent "f2" (relabel "Title") twoFields))
     = ["f1"%string; "f2"%string]
  /\ at_index (components (updateComponent "f2" (relabel "Title") twoFields)) 1
     = Some (spreadComponent f2 (relabel "Title")).
Proof.
  destruct (@update_keeps_ids twoFields "f2" (relabel "Title") eq_refl)
    as [Hm Hi].
  split; [reflexivity|]. split; [exact Hm|]. exact (Hi 1 f2 eq_refl).
Defined.

(** ** Reset *)

(** [reset] returns the initial state whatever the state was, and no
    sequence of [undo] and [redo] leaves it: the work done before a
    reset cannot be recovered. *)
Theorem reset_forgets (state : FormBuilderState) (actions : list Action) :
  forallb only_undo_redo actions = true ->
  run (reset state) actions = Some initialState.
Proof.
  change (reset state) with initialState.
  induction actions as [|a rest IH]; simpl; [reflexivity|].
  intros H. apply andb_true_iff in H as [Ha Hrest].
  destruct a; try discriminate; simpl; now apply IH.
Qed.

Lemma reset_forgets_witness :
  forallb only_undo_redo [Undo; Undo; Redo] = true
  /\ run (reset fullState) [Undo; Undo; Redo] = Some initialState.
Proof.
  split; [reflexivity|].
  apply (@reset_forgets fullState [Undo; Undo; Redo]). reflexivity.
Defined.

(** ** Keyboard shortcuts *)

Lemma key_z_distinct :
  "z"%string <> "Z"%string /\ "z"%string <> "y"%string /\ "z"%string <> "p"%string
  /\ "Z"%string <> "y"%string /\ "Z"%string <> "p"%string
  /\ "y"%string <> "p"%string.
Proof. repeat split; discriminate. Qed.

Lemma handleKeyDown_one_call (e : KeyboardEvent) :
  handleKeyDown e = []
  \/ handleKeyDown e = [PreventDefault; CallUndo]
  \/ handleKeyDown e = [PreventDefault; CallRedo]
  \/ handleKeyDown e = [PreventDefault; CallOnTogglePreview].
Proof.
  destruct e as [c m sh k]. unfold handleKeyDown. cbn [KeyboardEvent.ctrlKey
    KeyboardEvent.metaKey KeyboardEvent.shiftKey KeyboardEvent.key].
  destruct key_z_distinct as (H1 & H2 & H3 & H4 & H5 & H6).
  destruct (String.eqb_spec k "z") as [Ez|Ez];
    destruct (String.eqb_spec k "Z") as [EZ|EZ];
    destruct (String.eqb_spec k "y") as [Ey|Ey];
    destruct (String.eqb_spec k "p") as [Ep|Ep];
    try congruence;
    destruct c, m, sh; cbn; tauto.
Qed.

(** A key event makes at most one of the calls [undo], [redo] and
    [onTogglePreview], each after [preventDefault]: undo on z with Ctrl
    or Meta and without Shift, redo on Z with Ctrl or Meta and Shift or
    on y with Ctrl or Meta, the preview toggle on p with Ctrl or Meta;
    any other event, and every event without Ctrl and Meta, makes no
    call and does not prevent the default. *)
Theorem handleKeyDown_cases (e : KeyboardEvent) :
  let ctrl := KeyboardEvent.ctrlKey e || KeyboardEvent.metaKey e in
  let shift := KeyboardEvent.shiftKey e in
  let key := KeyboardEvent.key e in
  (handleKeyDown e = [PreventDefault; CallUndo]
   <-> ctrl = true /\ key = "z"%string /\ shift = false)
  /\ (handleKeyDown e = [PreventDefault; CallRedo]
      <-> ctrl = true /\ ((shift = true /\ key = "Z"%string) \/ key = "y"%string))
  /\ (handleKeyDown e = [PreventDefault; CallOnTogglePreview]
      <-> ctrl = true /\ key = "p"%string)
  /\ (handleKeyDown e = []
      \/ handleKeyDown e = [PreventDefault; CallUndo]
      \/ handleKeyDown e = [PreventDefault; CallRedo]
      \/ handleKeyDown e = [PreventDefault; CallOnTogglePreview])
  /\ (ctrl = false -> handleKeyDown e = []).
Proof.
  destruct e as [c m sh k]. unfold handleKeyDown. cbn [KeyboardEvent.ctrlKey
    KeyboardEvent.metaKey KeyboardEvent.shiftKey KeyboardEvent.key].
  destruct key_z_distinct as (H1 & H2 & H3 & H4 & H5 & H6).
  destruct (String.eqb_spec k "z") as [Ez|Ez];
    destruct (String.eqb_spec k "Z") as [EZ|EZ];
    destruct (String.eqb_spec k "y") as [Ey|Ey];
    destruct (String.eqb_spec k "p") as [Ep|Ep];
    try congruence;
    destruct c, m, sh; cbn;
    intuition (first [discriminate | congruence]).
Qed.

(** In a store that satisfies the history invariant no key event throws,
    and none changes the entries of the history or breaks the invariant:
    the shortcuts only move the cursor or flip the preview flag. *)
Theorem keyboard_keeps_history (state : FormBuilderState) (e : KeyboardEvent) :
  history_ok state ->
  exists state',
    key_calls state (handleKeyDown e) = Some state'
    /\ history_ok state'
    /\ history state' = history state.
Proof.
  intros Hok.
  destruct (handleKeyDown_one_call e) as [-> | [-> | [-> | ->]]];
    cbn [key_calls key_call].
  - now exists state.
  - destruct (step_history_ok Undo Hok) as (s' & Hs & Hok').
    rewrite Hs. exists s'. split; [reflexivity|]. split; [exact Hok'|].
    simpl in Hs. destruct (undo state) as [[b s1]|] eqn:E; [|discriminate].
    inversion Hs. subst. apply (undo_history _ E).
  - destruct (step_history_ok Redo Hok) as (s' & Hs & Hok').
    rewrite Hs. exists s'. split; [reflexivity|]. split; [exact Hok'|].
    simpl in Hs. destruct (redo state) as [[b s1]|] eqn:E; [|discriminate].
    inversion Hs. subst. apply (redo_history _ E).
  - exists (handleTogglePreview state).
    split; [reflexivity|]. split; [exact Hok|reflexivity].
Qed.

Lemma keyboard_keeps_history_witness :
  history_ok midState
  /\ exists state',
       key_calls midState
         (handleKeyDown (KeyboardEvent.mk true false false "z")) = Some state'
       /\ currentHistoryIndex state' = 1
       /\ history state' = history midState.
Proof.
  assert (Hok : history_ok midState) by (unfold history_ok; simpl; lia).
  split; [exact Hok|].
  destruct (@keyboard_keeps_history midState
              (KeyboardEvent.mk true false false "z") Hok)
    as (s' & Hs & _ & Hh).
  exists s'. split; [exact Hs|]. split; [|exact Hh].
  inversion Hs. reflexivity.
Defined.



(** ** The properties panel on the store *)

Lemma panel_call (state : FormBuilderState) (sel : FormComponent)
    (updates : PartialFormComponent)
    (handler : option FormComponent -> option UpdateCall) :
  selectedComponent state = Some sel ->
  handler (Some sel) = Some (FormComponent.id sel, updates) ->
  selectedComponent (panel handler state) = Some (spreadComponent sel updates)
  /\ (In sel (components state) ->
      In (spreadComponent sel updates) (components (panel handler state))).
Proof.
  intros Hsel Hcall. unfold panel. rewrite Hsel, Hcall.
  unfold handleUpdateComponent, updateComponent.
  cbn [selectedComponent components set_document pushToHistory].
  rewrite Hsel. cbn [selected_is option_map]. rewrite id_is_refl.
  split; [reflexivity|]. intros Hin.
  apply in_map_iff. exists sel. split; [|exact Hin]. now rewrite id_is_refl.
Qed.

(** With a component selected, each field handler of the panel changes
    exactly its own property of the selection (label, placeholder,
    required, options) and keeps the id and the other properties; when
    the selected component is in the list, the list holds the changed
    component as well. *)
Theorem panel_edits_selection (state : FormBuilderState) (sel : FormComponent) :
  selectedComponent state = Some sel ->
  let changed label placeholder required options :=
    FormComponent.mk (FormComponent.id sel) (FormComponent.type sel)
                     label placeholder required options in
  let result handler new :=
    selectedComponent (panel handler state) = Some new
    /\ (In sel (components state) ->
        In new (components (panel handler state))) in
  (forall value,
     result (handleLabelChange value)
            (changed value (FormComponent.placeholder sel)
                     (FormComponent.required sel) (FormComponent.options sel)))
  /\ (forall value,
        result (handlePlaceholderChange value)
               (changed (FormComponent.label sel) (Some value)
                        (FormComponent.required sel) (FormComponent.options sel)))
  /\ (forall value,
        result (handleRequiredChange value)
               (changed (FormComponent.label sel) (FormComponent.placeholder sel)
                        (Some value) (FormComponent.options sel)))
  /\ (forall opts,
        result (handleOptionsChange opts)
               (changed (FormComponent.label sel) (FormComponent.placeholder sel)
                        (FormComponent.required sel) (Some opts))).
Proof.
  intros Hsel changed result. unfold result, changed.
  split; [|split; [|split]]; intros value.
  - apply (@panel_call state sel
             (PartialFormComponent.mk None None (Some value) None None None)
             (handleLabelChange value) Hsel eq_refl).
  - apply (@panel_call state sel
             (PartialFormComponent.mk None None None (Some (Some value)) None None)
             (handlePlaceholderChange value) Hsel eq_refl).
  - apply (@panel_call state sel
             (PartialFormComponent.mk None None None None (Some (Some value)) None)
             (handleRequiredChange value) Hsel eq_refl).
  - apply (@panel_call state sel
             (PartialFormComponent.mk None None None None None (Some (Some value)))
             (handleOptionsChange value) Hsel eq_refl).
Qed.

Lemma panel_edits_selection_witness :
  selectedComponent (selectComponent (Some f2) twoFields) = Some f2
  /\ selectedComponent
       (panel (handleRequiredChange true) (selectComponent (Some f2) twoFields))
     = Some (FormComponent.mk "f2" "select" "Color" None (Some true)
                              (Some ["Red"%string; "Blue"%string]))
  /\ In (FormComponent.mk "f2" "select" "Color" None (Some true)
                          (Some ["Red"%string; "Blue"%string]))
        (components
           (panel (handleRequiredChange true)
                  (selectComponent (Some f2) twoFields))).
Proof.
  destruct (@panel_edits_selection (selectComponent (Some f2) twoFields) f2 eq_refl)
    as (_ & _ & Hreq & _).
  destruct (Hreq true) as [Hs Hin].
  split; [reflexivity|]. split; [exact Hs|].
  apply Hin. right. left. reflexivity.
Defined.

Section RemoveAtIndex.
Variable A : Type.

Lemma filter_from_outside (index : Z) (l : list A) : forall i,
  index < i ->
  filter_from (fun (_ : A) j => negb (j =? index)) i l = l.
Proof.
  induction l as [|x r IH]; intros i Hi; simpl; [reflexivity|].
  assert (E : (i =? index) = false) by (apply Z.eqb_neq; lia).
  rewrite E. simpl. f_equal. apply IH. lia.
Qed.

Lemma filter_from_remove (index : Z) (l : list A) : forall i,
  i <= index ->
  filter_from (fun (_ : A) j => negb (j =? index)) i l
  = firstn (Z.to_nat (index - i)) l ++ skipn (S (Z.to_nat (index - i))) l.
Proof.
  induction l as [|x r IH]; intros i Hi; simpl.
  - now rewrite firstn_nil.
  - destruct (Z.eqb_spec i index) as [E|E]; simpl.
    + subst. rewrite Z.sub_diag. simpl. apply filter_from_outside. lia.
    + rewrite (IH (i + 1)) by lia.
      replace (Z.to_nat (index - i)) with (S (Z.to_nat (index - (i + 1))))
        by lia.
      reflexivity.
Qed.

(** [l.filter((_, i) => i !== index)] removes the element at [index] and
    nothing else; an index outside the list removes nothing. *)
Lemma filter_indexed_remove (index : Z) (l : list A) :
  filter_indexed (fun (_ : A) j => negb (j =? index)) l
  = if 0 <=? index
    then firstn (Z.to_nat index) l ++ skipn (S (Z.to_nat index)) l
    else l.
Proof.
  unfold filter_indexed. destruct (Z.leb_spec 0 index) as [H|H].
  - rewrite filter_from_remove by lia. now rewrite Z.sub_0_r.
  - apply filter_from_outside. lia.
Qed.

End RemoveAtIndex.

(** [removeOption] sends the options without the one at the given index,
    the others in their order: one option fewer for an index inside the
    list, the same options for any other index. *)
Theorem removeOption_removes (comp : FormComponent) (index : Z) :
  exists opts,
    removeOption index (Some comp) = handleOptionsChange opts (Some comp)
    /\ opts = (if 0 <=? index
               then firstn (Z.to_nat index) (currentOptions comp)
                    ++ skipn (S (Z.to_nat index)) (currentOptions comp)
               else currentOptions comp)
    /\ (0 <= index < Z.of_nat (length (currentOptions comp)) ->
        S (length opts) = length (currentOptions comp))
    /\ (index < 0 \/ Z.of_nat (length (currentOptions comp)) <= index ->
        opts = currentOptions comp).
Proof.
  eexists. split; [reflexivity|]. rewrite filter_indexed_remove.
  split; [reflexivity|]. split.
  - intros Hi. destruct (Z.leb_spec 0 index); [|lia].
    rewrite length_app, length_firstn, length_skipn. lia.
  - intros [Hi|Hi]; destruct (Z.leb_spec 0 index); try lia; try reflexivity.
    rewrite firstn_all2, skipn_all2 by lia. apply app_nil_r.
Qed.

(** With a component selected, [addOption] appends the option named
    "Option n+1" for [n] options, and [removeOption] at the index of
    that new option gives back the options there were (the empty list
    when the component had none). *)
Theorem option_add_then_remove (state : FormBuilderState) (sel : FormComponent) :
  selectedComponent state = Some sel ->
  let added := panel addOption state in
  selectedOptions added =
    currentOptions sel
    ++ [String.append "Option "
          (string_of_length (length (currentOptions sel) + 1))]
  /\ selectedOptions
       (panel (removeOption (Z.of_nat (length (currentOptions sel)))) added)
     = currentOptions sel.
Proof.
  intros Hsel added.
  set (new := String.append "Option "
                (string_of_length (length (currentOptions sel) + 1))).
  destruct (@panel_call state sel
              (PartialFormComponent.mk None None None None None
                 (Some (Some (currentOptions sel ++ [new]))))
              addOption Hsel eq_refl) as [Hadded _].
  fold added in Hadded.
  assert (Hopts : selectedOptions added = currentOptions sel ++ [new]).
  { unfold selectedOptions. now rewrite Hadded. }
  split; [exact Hopts|].
  set (sel1 := spreadComponent sel
                 (PartialFormComponent.mk None None None None None
                    (Some (Some (currentOptions sel ++ [new]))))) in *.
  assert (Hcur : currentOptions sel1 = currentOptions sel ++ [new]) by reflexivity.
  assert (Hcall : removeOption (Z.of_nat (length (currentOptions sel))) (Some sel1)
                  = Some (FormComponent.id sel1,
                          PartialFormComponent.mk None None None None None
                            (Some (Some (currentOptions sel))))).
  { unfold removeOption, handleOptionsChange. rewrite Hcur, filter_indexed_remove.
    destruct (Z.leb_spec 0 (Z.of_nat (length (currentOptions sel)))); [|lia].
    rewrite Nat2Z.id, firstn_app, Nat.sub_diag, firstn_all.
    rewrite skipn_all2 by (rewrite length_app; simpl; lia).
    simpl. now rewrite !app_nil_r. }
  destruct (@panel_call added sel1 _
              (removeOption (Z.of_nat (length (currentOptions sel))))
              Hadded Hcall) as [Hremoved _].
  unfold selectedOptions. now rewrite Hremoved.
Qed.

Lemma option_add_then_remove_witness :
  selectedComponent (selectComponent (Some f2) twoFields) = Some f2
  /\ selectedOptions (panel addOption (selectComponent (Some f2) twoFields))
     = ["Red"%string; "Blue"%string; "Option 3"%string]
  /\ selectedOptions
       (panel (removeOption 2)
              (panel addOption (selectComponent (Some f2) twoFields)))
     = ["Red"%string; "Blue"%string].
Proof.
  destruct (@option_add_then_remove (selectComponent (Some f2) twoFields) f2 eq_refl)
    as [Ha Hr].
  split; [reflexivity|]. split; [exact Ha|exact Hr].
Defined.

(** A change of one form setting through the panel sets that setting and
    keeps the other three, the components and the selection; the state
    before the change is the history entry under the cursor, and the
    recently-deleted slot is emptied. *)
Theorem setting_change_one_field (state : FormBuilderState) (change : SettingChange) :
  let state' := handleUpdateFormSettings (handleFormSettingChange change) state in
  let old := formSettings state in
  formSettings state' =
    match change with
    | ChangeTitle v =>
        FormSettings.mk v (FormSettings.description old)
                        (FormSettings.requireLogin old) (FormSettings.collectEmail old)
    | ChangeDescription v =>
        FormSettings.mk (FormSettings.title old) v
                        (FormSettings.requireLogin old) (FormSettings.collectEmail old)
    | ChangeRequireLogin v =>
        FormSettings.mk (FormSettings.title old) (FormSettings.description old)
                        v (FormSettings.collectEmail old)
    | ChangeCollectEmail v =>
        FormSettings.mk (FormSettings.title old) (FormSettings.description old)
                        (FormSettings.requireLogin old) v
    end
  /\ components state' = components state
  /\ selectedComponent state' = selectedComponent state
  /\ at_index (history state') (currentHistoryIndex state') = Some (snapshot state)
  /\ recentlyDeleted state' = None.
Proof.
  intros state' old. split; [now destruct change|].
  split; [reflexivity|]. split; [reflexivity|].
  split; [apply pushToHistory_top|reflexivity].
Qed.

(** ** More on the cursor *)



(** A structural mutation made below the cap keeps the entries up to
    the cursor where they are, drops those after it and appends the
    snapshot of the state before the mutation: the history has
    [cursor + 2] entries, whatever could be redone before is gone. *)
Theorem redo_branch_dropped (state : FormBuilderState) (a : Action) :
  history_ok state -> structural state a = true ->
  currentHistoryIndex state + 2 <= 50 ->
  exists state',
    step state a = Some state'
    /\ history state' =
       firstn (S (Z.to_nat (currentHistoryIndex state))) (history state)
       ++ [snapshot state]
    /\ Z.of_nat (length (history state')) = currentHistoryIndex state + 2
    /\ (forall i, 0 <= i <= currentHistoryIndex state ->
          at_index (history state') i = at_index (history state) i)
    /\ redo state' = Some (false, state').
Proof.
  intros Hok Hs Hcap.
  destruct (structural_step _ _ Hs) as (s' & Hstep & Hh & Hc).
  pose proof Hok as [Hi _].
  set (L := firstn (S (Z.to_nat (currentHistoryIndex state))) (history state)).
  assert (HL : length L = S (Z.to_nat (currentHistoryIndex state)))
    by (unfold L; rewrite length_firstn; lia).
  assert (Hhist : history s' = L ++ [snapshot state]).
  { rewrite Hh, (pushToHistory_history_ok Hok). fold L.
    apply keep_last_short. rewrite length_app, HL. simpl. lia. }
  exists s'. split; [exact Hstep|]. split; [exact Hhist|].
  assert (Hlen : Z.of_nat (length (history s')) = currentHistoryIndex state + 2)
    by (rewrite Hhist, length_app, HL; simpl; lia).
  split; [exact Hlen|]. split.
  - intros i Hrange. rewrite Hhist, !at_index_nth_error by lia.
    rewrite nth_error_app1 by lia. unfold L. rewrite nth_error_firstn.
    assert (E : (Z.to_nat i <? S (Z.to_nat (currentHistoryIndex state)))%nat = true)
      by (apply Nat.ltb_lt; lia).
    now rewrite E.
  - apply redo_at_tip. rewrite Hc, Hh, pushToHistory_cursor. lia.
Qed.

Lemma redo_branch_dropped_witness :
  history_ok midState /\ structural midState (AddComponent f2) = true
  /\ currentHistoryIndex midState + 2 <= 50
  /\ canRedo midState = true
  /\ exists state',
       step midState (AddComponent f2) = Some state'
       /\ Z.of_nat (length (history state')) = 4
       /\ redo state' = Some (false, state').
Proof.
  assert (Hok : history_ok midState) by (unfold history_ok; simpl; lia).
  assert (Hcap : currentHistoryIndex midState + 2 <= 50) by (simpl; lia).
  split; [exact Hok|]. split; [reflexivity|]. split; [exact Hcap|].
  split; [reflexivity|].
  destruct (@redo_branch_dropped midState (AddComponent f2) Hok eq_refl Hcap)
    as (s' & Hstep & _ & Hlen & _ & Hr).
  exists s'. split; [exact Hstep|]. split; [exact Hlen|exact Hr].
Defined.
